(** * IntentVision ADK: agent task gateway, tool wrappers, session-memory callback

    A shallow embedding of
    - [service/a2a_gateway/main.py]      (module [Gateway]),
    - [agents/shared_tools/intentvision_api.py] (module [Tools]),
    - [agents/utils/memory.py]           (module [Memory]),
    over a small model of the Python values, exceptions and effects these
    files use (module [Py]). *)

From Stdlib Require Import ZArith QArith String Ascii List Lia DecimalString.
From stdpp Require Import base gmap strings list.

Set Warnings "-register-all".
Set Default Proof Using "Type".

(* ===================================================================== *)
(** * Python values, exceptions and effects                               *)
(* ===================================================================== *)

Module Py.

(** A Python float: a finite number, an infinity or NaN ([json.loads]
    yields the last two for [1e999], [Infinity], [NaN]). *)
Inductive pyfloat :=
| Finite (q : Q)
| Infinity (negative : bool)
| NaN.

(** JSON-shaped Python values ([Dict[str, Any]] payloads, request bodies).
    A [str] is held as the bytes of its code points in UTF-8, each code
    point encoded on its own: a lone surrogate (U+D800..U+DFFF, which
    [json.loads] yields for an unpaired escape) is the three bytes
    ED A0..BF 80..BF, which UTF-8 proper never has. *)
Inductive value :=
| VNone
| VBool (b : bool)
| VInt (n : Z)
| VFloat (f : pyfloat)
| VStr (s : string)
| VList (l : list value)
| VDict (d : gmap string value).

(** Python truth value testing ([if x], [not x], [x or y]). *)
Definition truthy (v : value) : bool :=
  match v with
  | VNone => false
  | VBool b => b
  | VInt n => negb (n =? 0)%Z
  | VFloat (Finite q) => negb (Qnum q =? 0)%Z
  | VFloat _ => true
  | VStr s => negb (String.eqb s "")
  | VList l => match l with [] => false | _ => true end
  | VDict d => negb (bool_decide (d = ∅))
  end.

(** A surrogate code point in a [str]: lead byte ED followed by A0..BF. *)
Fixpoint has_surrogate (s : string) : bool :=
  match s with
  | String c ((String c' _) as s') =>
      ((N_of_ascii c =? 237)%N && (160 <=? N_of_ascii c')%N && (N_of_ascii c' <=? 191)%N)
      || has_surrogate s'
  | _ => false
  end.

(** What [json.dumps(v, ensure_ascii=False, allow_nan=False).encode("utf-8")]
    accepts: no float that is not finite, no text with a surrogate. *)
Fixpoint json_renderable (v : value) : bool :=
  match v with
  | VFloat (Finite _) => true
  | VFloat _ => false
  | VStr s => negb (has_surrogate s)
  | VList l => forallb json_renderable l
  | VDict d =>
      map_fold (fun k v' acc => negb (has_surrogate k) && json_renderable v' && acc) true d
  | _ => true
  end.
Arguments json_renderable : simpl never.

(** [type(v).__name__], as it appears in AttributeError messages. *)
Definition type_name (v : value) : string :=
  match v with
  | VNone => "NoneType"
  | VBool _ => "bool"
  | VInt _ => "int"
  | VFloat _ => "float"
  | VStr _ => "str"
  | VList _ => "list"
  | VDict _ => "dict"
  end.

(** [str(n)] for an int. *)
Definition str_int (n : Z) : string := NilZero.string_of_int (Z.to_int n).

(** Exceptions.  [HTTPException] is FastAPI's (a subclass of [Exception]);
    [Exception msg] is any other instance of [Exception] whose [str] is
    [msg]; [BaseException msg] is an instance of [BaseException] that is
    not an [Exception] (KeyboardInterrupt, SystemExit, CancelledError). *)
Inductive exn :=
| HTTPException (status_code : Z) (detail : string)
| Exception (msg : string)
| BaseException (msg : string).

(** [isinstance(e, Exception)]: what [except Exception] catches. *)
Definition isinstance_Exception (e : exn) : bool :=
  match e with
  | HTTPException _ _ => true
  | Exception _ => true
  | BaseException _ => false
  end.

(** [str(e)]. *)
Definition str_exn (e : exn) : string :=
  match e with
  | HTTPException c d => str_int c +:+ ": " +:+ d
  | Exception m => m
  | BaseException m => m
  end.

(** The result of running a piece of Python: it returns or it raises. *)
Inductive outcome (A : Type) :=
| Return (a : A)
| Raise (e : exn).
Arguments Return {A} a.
Arguments Raise {A} e.

(** ** Clock *)

Record datetime := {
  year : Z; month : Z; day : Z;
  hour : Z; minute : Z; second : Z;
  microsecond : Z
}.

(** The ranges of the fields of a Python [datetime]. *)
Definition valid_datetime (d : datetime) : Prop :=
  (1 <= year d <= 9999 /\ 1 <= month d <= 12 /\ 1 <= day d <= 31 /\
   0 <= hour d < 24 /\ 0 <= minute d < 60 /\ 0 <= second d < 60 /\
   0 <= microsecond d < 1000000)%Z.

Definition digit (n : Z) : ascii := ascii_of_N (Z.to_N (48 + n mod 10)).

(** [k] decimal digits of [n], zero padded ([%02d], [%04d], [%06d]). *)
Fixpoint pad (k : nat) (n : Z) : string :=
  match k with
  | O => ""
  | S k' => pad k' (n / 10) +:+ String (digit n) ""
  end.

(** [d.strftime('%Y%m%d%H%M%S')] *)
Definition strftime_YmdHMS (d : datetime) : string :=
  pad 4 (year d) +:+ pad 2 (month d) +:+ pad 2 (day d) +:+
  pad 2 (hour d) +:+ pad 2 (minute d) +:+ pad 2 (second d).

(** [d.isoformat()]: the fraction is printed only when it is not zero. *)
Definition isoformat (d : datetime) : string :=
  pad 4 (year d) +:+ "-" +:+ pad 2 (month d) +:+ "-" +:+ pad 2 (day d) +:+ "T" +:+
  pad 2 (hour d) +:+ ":" +:+ pad 2 (minute d) +:+ ":" +:+ pad 2 (second d) +:+
  (if (microsecond d =? 0)%Z then "" else "." +:+ pad 6 (microsecond d)).

(** ** State *)

(** One call made to the backend agent client. *)
Record call := {
  call_agent_engine_id : string;
  call_message : string;
  call_session_id : value
}.

Inductive level := INFO | ERROR.

(** One record emitted through [logging]. *)
Record log_record := {
  lr_level : level;
  lr_message : string;
  lr_spiffe_id : string
}.

(** The process as the modelled code sees it: [clock n] is what the [n]-th
    call of [datetime.utcnow()] returns and [ticks] counts the calls made so
    far; [sent] is the trace of dispatches to the backend client; [log] is
    what went through the module loggers. *)
Record state := {
  clock : nat -> datetime;
  ticks : nat;
  sent : list call;
  log : list log_record
}.

Definition set_ticks (t : nat) (s : state) : state :=
  {| clock := clock s; ticks := t; sent := sent s; log := log s |}.
Definition add_sent (c : call) (s : state) : state :=
  {| clock := clock s; ticks := ticks s; sent := sent s ++ [c]; log := log s |}.
Definition add_log (r : log_record) (s : state) : state :=
  {| clock := clock s; ticks := ticks s; sent := sent s; log := log s ++ [r] |}.

(** Code of this repository runs in [M]: state passing plus exceptions. *)
Definition M (A : Type) : Type := state -> outcome A * state.

(** External collaborators (the backend agent, the memory service, the HTTP
    transport) see the clock and may let time pass; they have no access to
    the dispatch trace or to the loggers. *)
Definition ext (A : Type) : Type := (nat -> datetime) -> nat -> outcome A * nat.

Definition ret {A} (a : A) : M A := fun s => (Return a, s).
Definition raise {A} (e : exn) : M A := fun s => (Raise e, s).
Definition bind {A B} (m : M A) (k : A -> M B) : M B :=
  fun s => match m s with
           | (Return a, s') => k a s'
           | (Raise e, s') => (Raise e, s')
           end.

(** [try: body  except Exception as e: handler e] *)
Definition try_except {A} (body : M A) (handler : exn -> M A) : M A :=
  fun s => match body s with
           | (Return a, s') => (Return a, s')
           | (Raise e, s') =>
               if isinstance_Exception e then handler e s' else (Raise e, s')
           end.

Definition lift_outcome {A} (o : outcome A) : M A := fun s => (o, s).

Definition lift_ext {A} (x : ext A) : M A :=
  fun s => let (r, t) := x (clock s) (ticks s) in (r, set_ticks t s).

(** [datetime.utcnow()] *)
Definition utcnow : M datetime :=
  fun s => (Return (clock s (ticks s)), set_ticks (S (ticks s)) s).

(** [logger.info(msg, extra=...)]: the record is made only when the logger
    is enabled for INFO. *)
Definition logger_info (enabled : bool) (msg spiffe : string) : M unit :=
  fun s => (Return tt,
            if enabled
            then add_log {| lr_level := INFO; lr_message := msg; lr_spiffe_id := spiffe |} s
            else s).
Definition logger_error (msg spiffe : string) : M unit :=
  fun s => (Return tt, add_log {| lr_level := ERROR; lr_message := msg; lr_spiffe_id := spiffe |} s).

End Py.

Export Py.

Declare Scope py_scope.
Delimit Scope py_scope with py.
Notation "x <- c1 ;; c2" := (bind c1 (fun x => c2))
  (at level 100, c1 at next level, right associativity) : py_scope.
Notation "c1 ;;; c2" := (bind c1 (fun _ => c2))
  (at level 100, right associativity) : py_scope.
Local Open Scope py_scope.

(** Python dicts whose key order is observable: association lists. *)
Fixpoint dict_get {V : Type} (k : string) (d : list (string * V)) : option V :=
  match d with
  | [] => None
  | (k', v) :: d' => if String.eqb k k' then Some v else dict_get k d'
  end.

Definition dict_keys {V : Type} (d : list (string * V)) : list string := map fst d.

(** [d[k] = v]: an existing key keeps its place, a new one goes last. *)
Fixpoint dict_set {V : Type} (k : string) (v : V) (d : list (string * V))
  : list (string * V) :=
  match d with
  | [] => [(k, v)]
  | (k', v') :: d' =>
      if String.eqb k k' then (k, v) :: d' else (k', v') :: dict_set k v d'
  end.

(** [f"{v}"] for a request value.  Strings print as themselves and the
    scalar constants as Python prints them; the text of floats and of
    containers is Python's [repr], left to the parameter [py_repr]. *)
Definition format_value (py_repr : value -> string) (v : value) : string :=
  match v with
  | VStr s => s
  | VNone => "None"
  | VBool true => "True"
  | VBool false => "False"
  | VInt n => str_int n
  | other => py_repr other
  end.

(* ===================================================================== *)
(** * service/a2a_gateway/main.py                                         *)
(* ===================================================================== *)

Module Gateway.

(** ** Pydantic models (A2A protocol) *)

Record AgentSkill := {
  skill_name : string;
  skill_description : string;
  input_schema : gmap string value;
  output_schema : gmap string value
}.

Record AgentCard := {
  protocol_version : string;
  card_name : string;
  version : string;
  url : string;
  card_description : string;
  capabilities : list string;
  skills : list AgentSkill;
  spiffe_id : option string
}.

Record TaskRequest := {
  skill : string;
  input : gmap string value;
  session_id : option string;
  trace_id : option string
}.

Record TaskStatus := {
  task_id : string;
  status : string;
  created_at : string;
  updated_at : string;
  result : option (gmap string value);
  error : option string
}.

Record GatewayHealth := {
  health_status : string;
  gateway_id : string;
  health_spiffe_id : string;
  timestamp : string;
  agents : list (string * string)
}.

(** The request object of the chat endpoint: [await request.json()] parses
    the body, or raises when the body is not JSON. *)
Record Request := { json : outcome value }.

(** ** Backend agent client *)

(** What the gateway uses of its client object: the two methods of
    [AgentEngineClient].  Tests replace the object to inject faults, so the
    handlers are stated over any implementation. *)
Record BackendAgentClient := {
  send_message : string -> string -> value -> ext (gmap string value);
  get_agent_status : string -> ext string
}.

(** [class AgentEngineClient]: the stub of the source. *)
Definition AgentEngineClient (project_id location : string) : BackendAgentClient := {|
  send_message := fun agent_engine_id message session_id clk t =>
    (Return
       {[ "session_id" := (if truthy session_id then session_id
                           else VStr ("session-" +:+ agent_engine_id));
          "response" := VStr ("[Stub] Agent " +:+ agent_engine_id +:+ " received: " +:+ message);
          "agent_engine_id" := VStr agent_engine_id;
          "timestamp" := VStr (isoformat (clk t)) ]},
     S t);
  get_agent_status := fun _ _ t => (Return "available", t)
|}.

Section Handlers.

Variables PROJECT_ID LOCATION ENV : string.
Variable py_repr : value -> string.

(** The text of the error raised for a content that does not render as
    JSON; it varies with the Python version and the place of the fault. *)
Variable render_error : gmap string value -> string.

(** The module global [agent_client]: [None] until [lifespan] has run. *)
Variable agent_client : option BackendAgentClient.

Definition AGENT_ENGINE_IDS : list (string * string) :=
  [ ("orchestrator", "intentvision-orchestrator-" +:+ ENV);
    ("metric-analyst", "intentvision-metric-analyst-" +:+ ENV);
    ("alert-tuner", "intentvision-alert-tuner-" +:+ ENV);
    ("onboarding-coach", "intentvision-onboarding-coach-" +:+ ENV) ].

Definition GATEWAY_SPIFFE_ID : string :=
  "spiffe://intent-solutions.io/gateway/a2a/" +:+ ENV +:+ "/" +:+ LOCATION.

(** [agent_client.send_message(...)]: attribute access on [None] raises
    AttributeError; otherwise the call is recorded in the dispatch trace and
    handed to the client. *)
Definition call_send_message (agent_engine_id message : string) (sid : value)
  : M (gmap string value) :=
  match agent_client with
  | None => raise (Exception "'NoneType' object has no attribute 'send_message'")
  | Some c =>
      fun s =>
        lift_ext (send_message c agent_engine_id message sid)
          (add_sent {| call_agent_engine_id := agent_engine_id;
                       call_message := message;
                       call_session_id := sid |} s)
  end.

(** The loop of [health_check]: one status per entry of the table, asked of
    the client when there is one. *)
Fixpoint health_loop (items : list (string * string))
    (agents_status : list (string * string)) : M (list (string * string)) :=
  match items with
  | [] => ret agents_status
  | (name, agent_id) :: rest =>
      st <- match agent_client with
            | Some c => lift_ext (get_agent_status c agent_id)
            | None => ret "unknown"
            end ;;
      health_loop rest (dict_set name st agents_status)
  end.

(** [GET /health] *)
Definition health_check : M GatewayHealth :=
  agents_status <- health_loop AGENT_ENGINE_IDS [] ;;
  now <- utcnow ;;
  ret {| health_status := "healthy";
         gateway_id := "a2a-gateway-" +:+ ENV;
         health_spiffe_id := GATEWAY_SPIFFE_ID;
         timestamp := isoformat now;
         agents := agents_status |}.

(** [GET /agents] *)
Definition list_agents : M (list string) := ret (dict_keys AGENT_ENGINE_IDS).

Definition required (fields : list string) : gmap string value :=
  {[ "type" := VStr "object"; "required" := VList (map VStr fields) ]}.

Definition cards : list (string * AgentCard) :=
  [ ("orchestrator",
     {| protocol_version := "0.3.0";
        card_name := "intentvision-orchestrator";
        version := "0.14.1";
        url := "https://agents.intentvision.intent-solutions.io/orchestrator";
        card_description := "IntentVision Orchestrator - Routes requests to specialists";
        capabilities := ["routing"; "coordination"; "forecast_explanation"];
        skills :=
          [ {| skill_name := "Explain Forecast";
               skill_description := "Explain forecast predictions for a metric";
               input_schema := required ["org_id"; "metric_key"];
               output_schema := ∅ |};
            {| skill_name := "Analyze Alerts";
               skill_description := "Analyze alert rules and recommend changes";
               input_schema := required ["org_id"];
               output_schema := ∅ |} ];
        spiffe_id := Some ("spiffe://intent-solutions.io/agent/intentvision-orchestrator/"
                           +:+ ENV +:+ "/" +:+ LOCATION +:+ "/0.14.1") |});
    ("metric-analyst",
     {| protocol_version := "0.3.0";
        card_name := "metric-analyst";
        version := "0.14.1";
        url := "https://agents.intentvision.intent-solutions.io/metric-analyst";
        card_description := "IntentVision Metric Analyst - Forecast and anomaly analysis";
        capabilities := ["forecast_explanation"; "anomaly_analysis"; "backend_comparison"];
        skills :=
          [ {| skill_name := "Explain Forecast";
               skill_description := "Provide detailed explanation of forecast predictions";
               input_schema := required ["org_id"; "metric_key"];
               output_schema := ∅ |} ];
        spiffe_id := Some ("spiffe://intent-solutions.io/agent/metric-analyst/"
                           +:+ ENV +:+ "/" +:+ LOCATION +:+ "/0.14.1") |});
    ("alert-tuner",
     {| protocol_version := "0.3.0";
        card_name := "alert-tuner";
        version := "0.14.1";
        url := "https://agents.intentvision.intent-solutions.io/alert-tuner";
        card_description := "IntentVision Alert Tuner - Alert optimization";
        capabilities := ["alert_analysis"; "threshold_optimization"; "noise_reduction"];
        skills :=
          [ {| skill_name := "Analyze Alerts";
               skill_description := "Analyze alert rules and firing patterns";
               input_schema := required ["org_id"];
               output_schema := ∅ |} ];
        spiffe_id := Some ("spiffe://intent-solutions.io/agent/alert-tuner/"
                           +:+ ENV +:+ "/" +:+ LOCATION +:+ "/0.14.1") |});
    ("onboarding-coach",
     {| protocol_version := "0.3.0";
        card_name := "onboarding-coach";
        version := "0.14.1";
        url := "https://agents.intentvision.intent-solutions.io/onboarding-coach";
        card_description := "IntentVision Onboarding Coach - Setup assistance";
        capabilities := ["connection_guidance"; "metric_configuration"];
        skills :=
          [ {| skill_name := "Guide Connection";
               skill_description := "Guide user through connecting a data source";
               input_schema := required ["org_id"; "source_type"];
               output_schema := ∅ |} ];
        spiffe_id := Some ("spiffe://intent-solutions.io/agent/onboarding-coach/"
                           +:+ ENV +:+ "/" +:+ LOCATION +:+ "/0.14.1") |}) ].

(** [GET /agents/{agent_name}/.well-known/agent-card.json] *)
Definition get_agent_card (agent_name : string) : M AgentCard :=
  match dict_get agent_name AGENT_ENGINE_IDS with
  | None => raise (HTTPException 404 ("Agent not found: " +:+ agent_name))
  | Some _ =>
      ret (default
             {| protocol_version := "0.3.0";
                card_name := agent_name;
                version := "0.14.1";
                url := "https://agents.intentvision.intent-solutions.io/" +:+ agent_name;
                card_description := "IntentVision " +:+ agent_name;
                capabilities := [];
                skills := [];
                spiffe_id := None |}
             (dict_get agent_name cards))
  end.

(** [f"Execute skill '{request.skill}' with input: {request.input}"] *)
Definition task_message (request : TaskRequest) : string :=
  "Execute skill '" +:+ skill request +:+ "' with input: "
  +:+ format_value py_repr (VDict (input request)).

(** [request.session_id] as the value handed to the client. *)
Definition task_session (request : TaskRequest) : value :=
  from_option VStr VNone (session_id request).

(** [POST /agents/{agent_name}/tasks] *)
Definition submit_task (agent_name : string) (request : TaskRequest) : M TaskStatus :=
  match dict_get agent_name AGENT_ENGINE_IDS with
  | None => raise (HTTPException 404 ("Agent not found: " +:+ agent_name))
  | Some agent_engine_id =>
      let message := task_message request in
      try_except
        (response <- call_send_message agent_engine_id message (task_session request) ;;
         now_id <- utcnow ;;
         let task_id := "task-" +:+ agent_name +:+ "-" +:+ strftime_YmdHMS now_id in
         now_created <- utcnow ;;
         now_updated <- utcnow ;;
         ret {| task_id := task_id;
                status := "completed";
                created_at := isoformat now_created;
                updated_at := isoformat now_updated;
                result := Some response;
                error := None |})
        (fun e =>
           now_created <- utcnow ;;
           now_updated <- utcnow ;;
           ret {| task_id := "task-" +:+ agent_name +:+ "-error";
                  status := "failed";
                  created_at := isoformat now_created;
                  updated_at := isoformat now_updated;
                  result := None;
                  error := Some (str_exn e) |})
  end.

(** [body.get(key, dflt)]: defined on dicts only. *)
Definition body_get (body : value) (key : string) (dflt : value) : M value :=
  match body with
  | VDict d => ret (default dflt (d !! key))
  | other => raise (Exception ("'" +:+ type_name other +:+ "' object has no attribute 'get'"))
  end.

(** [f"[Organization: {org_id}] {message}"] *)
Definition chat_message (org_id message : value) : string :=
  "[Organization: " +:+ format_value py_repr org_id +:+ "] "
  +:+ format_value py_repr message.

(** The content of the chat answer, from the backend's reply. *)
Definition chat_content (response : gmap string value) : gmap string value :=
  {[ "response" := default (VStr "") (response !! "response");
     "session_id" := default VNone (response !! "session_id");
     "trace_id" := default VNone (response !! "trace_id") ]}.

(** [JSONResponse(content=...)]: the body is rendered when the response is
    built, inside the handler; content that does not render raises there
    (ValueError from [json.dumps], UnicodeEncodeError from [encode]). *)
Definition JSONResponse (content : gmap string value) : M (gmap string value) :=
  if json_renderable (VDict content) then ret content
  else raise (Exception (render_error content)).

(** [POST /agents/orchestrator/chat]; the result is the content of the
    [JSONResponse]. *)
Definition chat_with_orchestrator (request : Request) : M (gmap string value) :=
  body <- lift_outcome (json request) ;;
  message <- body_get body "message" (VStr "") ;;
  org_id <- body_get body "org_id" (VStr "") ;;
  session_id <- body_get body "session_id" VNone ;;
  if negb (truthy message) then raise (HTTPException 400 "message is required")
  else if negb (truthy org_id) then raise (HTTPException 400 "org_id is required")
  else
    match dict_get "orchestrator" AGENT_ENGINE_IDS with
    | None => raise (Exception "'orchestrator'")
    | Some agent_engine_id =>
        let full_message := chat_message org_id message in
        response <- call_send_message agent_engine_id full_message session_id ;;
        JSONResponse (chat_content response)
    end.

End Handlers.

Arguments chat_content : simpl never.
Arguments JSONResponse : simpl never.

(** How FastAPI answers for a handler: the returned model with 200, an
    [HTTPException] with its own status code, any other [Exception] with
    500; a [BaseException] that is not an [Exception] is not answered. *)
Definition http_status {A} (o : outcome A) : option Z :=
  match o with
  | Return _ => Some 200%Z
  | Raise (HTTPException c _) => Some c
  | Raise (Exception _) => Some 500%Z
  | Raise (BaseException _) => None
  end.

End Gateway.

(* ===================================================================== *)
(** * agents/shared_tools/intentvision_api.py                             *)
(* ===================================================================== *)

Module Tools.

(** What the tools use of an [httpx.Response]. *)
Record Response := {
  raise_for_status : outcome unit;
  json : outcome value
}.

(** What the tools use of the [httpx] module.  [get url params headers
    timeout] and [post url json headers timeout]; the timeout is in whole
    seconds. *)
Record Httpx := {
  get : string -> gmap string value -> gmap string string -> Z -> ext Response;
  post : string -> gmap string value -> gmap string string -> Z -> ext Response
}.

Section Api.

Variables INTENTVISION_API_URL INTENTVISION_API_KEY : string.
Variable httpx : Httpx.

Definition _get_headers : gmap string string :=
  {[ "X-API-Key" := INTENTVISION_API_KEY; "Content-Type" := "application/json" ]}.

(** [response.raise_for_status(); return response.json()] *)
Definition checked_json (response : Response) : M value :=
  lift_outcome (raise_for_status response) ;;;
  lift_outcome (json response).

(** [{"error": str(e), "success": False, **extra}] *)
Definition failure (e : exn) (extra : gmap string value) : value :=
  VDict (<["error" := VStr (str_exn e)]> (<["success" := VBool false]> extra)).

(** Defaults of the source: [horizon=7], [backend="statistical"]. *)
Definition get_forecast (org_id metric_key : string) (horizon : Z) (backend : string)
  : M value :=
  try_except
    (response <- lift_ext
        (get httpx (INTENTVISION_API_URL +:+ "/v1/forecast/" +:+ org_id +:+ "/" +:+ metric_key)
           {[ "horizon" := VInt horizon; "backend" := VStr backend ]}
           _get_headers 30) ;;
     checked_json response)
    (fun e => ret (failure e ∅)).

(** [if metric_key: params["metric_key"] = metric_key] and its like. *)
Definition with_optional (key : string) (v : option string) (params : gmap string value)
  : gmap string value :=
  match v with
  | Some s => if String.eqb s "" then params else <[key := VStr s]> params
  | None => params
  end.

(** Defaults of the source: [metric_key=None], [time_range="7d"],
    [min_severity="warning"]. *)
Definition get_anomalies (org_id : string) (metric_key : option string)
    (time_range min_severity : string) : M value :=
  try_except
    (let params :=
       with_optional "metric_key" metric_key
         {[ "time_range" := VStr time_range; "min_severity" := VStr min_severity ]} in
     response <- lift_ext
        (get httpx (INTENTVISION_API_URL +:+ "/v1/anomalies/" +:+ org_id)
           params _get_headers 30) ;;
     checked_json response)
    (fun e => ret (failure e {[ "anomalies" := VList [] ]})).

(** Default of the source: [time_range="7d"]. *)
Definition get_metric_history (org_id metric_key time_range : string) : M value :=
  try_except
    (response <- lift_ext
        (get httpx
           (INTENTVISION_API_URL +:+ "/v1/metrics/" +:+ org_id +:+ "/" +:+ metric_key +:+ "/history")
           {[ "time_range" := VStr time_range ]}
           _get_headers 30) ;;
     checked_json response)
    (fun e => ret (failure e {[ "values" := VList [] ]})).

Definition get_alert_rules (org_id : string) : M value :=
  try_except
    (response <- lift_ext
        (get httpx (INTENTVISION_API_URL +:+ "/v1/alerts/" +:+ org_id +:+ "/rules")
           ∅ _get_headers 30) ;;
     checked_json response)
    (fun e => ret (failure e {[ "rules" := VList [] ]})).

(** Defaults of the source: [rule_id=None], [time_range="30d"]. *)
Definition get_alert_history (org_id : string) (rule_id : option string)
    (time_range : string) : M value :=
  try_except
    (let params :=
       with_optional "rule_id" rule_id {[ "time_range" := VStr time_range ]} in
     response <- lift_ext
        (get httpx (INTENTVISION_API_URL +:+ "/v1/alerts/" +:+ org_id +:+ "/history")
           params _get_headers 30) ;;
     checked_json response)
    (fun e => ret (failure e {[ "events" := VList [] ]})).

(** Default of the source: [use_synthetic=True]. *)
Definition run_pipeline (org_id : string) (use_synthetic : bool) : M value :=
  try_except
    (response <- lift_ext
        (post httpx (INTENTVISION_API_URL +:+ "/v1/pipeline/" +:+ org_id +:+ "/run")
           {[ "use_synthetic" := VBool use_synthetic ]}
           _get_headers 60) ;;
     checked_json response)
    (fun e => ret (failure e ∅)).

End Api.

(** The six operations of the registry that perform an HTTP call, with
    their arguments. *)
Inductive http_tool :=
| GetForecast (org_id metric_key : string) (horizon : Z) (backend : string)
| GetAnomalies (org_id : string) (metric_key : option string) (time_range min_severity : string)
| GetMetricHistory (org_id metric_key time_range : string)
| GetAlertRules (org_id : string)
| GetAlertHistory (org_id : string) (rule_id : option string) (time_range : string)
| RunPipeline (org_id : string) (use_synthetic : bool).

(** [invoke(tool_name, args)] restricted to the HTTP-backed tools. *)
Definition invoke (api_url api_key : string) (httpx : Httpx) (t : http_tool) : M value :=
  match t with
  | GetForecast o m h b => get_forecast api_url api_key httpx o m h b
  | GetAnomalies o m r sv => get_anomalies api_url api_key httpx o m r sv
  | GetMetricHistory o m r => get_metric_history api_url api_key httpx o m r
  | GetAlertRules o => get_alert_rules api_url api_key httpx o
  | GetAlertHistory o r tr => get_alert_history api_url api_key httpx o r tr
  | RunPipeline o u => run_pipeline api_url api_key httpx o u
  end.

(** The request a tool sends: the transport call it makes. *)
Definition transport_call (api_url api_key : string) (httpx : Httpx) (t : http_tool)
  : ext Response :=
  let h := _get_headers api_key in
  match t with
  | GetForecast o m hz b =>
      get httpx (api_url +:+ "/v1/forecast/" +:+ o +:+ "/" +:+ m)
        {[ "horizon" := VInt hz; "backend" := VStr b ]} h 30
  | GetAnomalies o m r sv =>
      get httpx (api_url +:+ "/v1/anomalies/" +:+ o)
        (with_optional "metric_key" m
           {[ "time_range" := VStr r; "min_severity" := VStr sv ]}) h 30
  | GetMetricHistory o m r =>
      get httpx (api_url +:+ "/v1/metrics/" +:+ o +:+ "/" +:+ m +:+ "/history")
        {[ "time_range" := VStr r ]} h 30
  | GetAlertRules o =>
      get httpx (api_url +:+ "/v1/alerts/" +:+ o +:+ "/rules") ∅ h 30
  | GetAlertHistory o r tr =>
      get httpx (api_url +:+ "/v1/alerts/" +:+ o +:+ "/history")
        (with_optional "rule_id" r {[ "time_range" := VStr tr ]}) h 30
  | RunPipeline o u =>
      post httpx (api_url +:+ "/v1/pipeline/" +:+ o +:+ "/run")
        {[ "use_synthetic" := VBool u ]} h 60
  end.

End Tools.

(* ===================================================================== *)
(** * agents/utils/memory.py                                              *)
(* ===================================================================== *)

Module Memory.

Record Session := { id : string }.

(** What the callback uses of the memory service. *)
Record MemoryService := { add_session_to_memory : Session -> ext unit }.

(** [ctx._invocation_context]; an attribute that is absent or [None] is
    [None] here, as [getattr(_, _, None)] makes it. *)
Record InvocationContext := {
  memory_service : option MemoryService;
  session : option Session
}.

(** [invocation_context = None]: [hasattr(ctx, "_invocation_context")] is
    false. *)
Record CallbackContext := { invocation_context : option InvocationContext }.

(** What a callback may hand back to replace the agent's reply. *)
Definition Content := string.

Section Callback.

Variable AGENT_SPIFFE_ID : string.

(** [logger.isEnabledFor(logging.INFO)] for the module's logger.  The module
    configures nothing, so this is what the application has set up: false
    under Python's defaults (the root logger starts at WARNING). *)
Variable INFO_ENABLED : bool.

(** The function has no [return]: it evaluates to Python's [None]. *)
Definition auto_save_session_to_memory (ctx : CallbackContext) : M (option Content) :=
  try_except
    (match invocation_context ctx with
     | Some invocation_ctx =>
         match memory_service invocation_ctx, session invocation_ctx with
         | Some memory_svc, Some sess =>
             lift_ext (add_session_to_memory memory_svc sess) ;;;
             logger_info INFO_ENABLED
               ("Saved session " +:+ id sess +:+ " to Memory Bank") AGENT_SPIFFE_ID ;;;
             ret None
         | _, _ => ret None
         end
     | None => ret None
     end)
    (fun e =>
       logger_error ("Failed to save session to Memory Bank: " +:+ str_exn e) AGENT_SPIFFE_ID ;;;
       ret None).

End Callback.

(** Modelled from the spec: the turn of the Agent Runtime Wrapper (the
    runner that drives the agent and then calls [after_agent_callback] is
    the ADK's, not this repository's).  [run(agent, message, session_id) ->
    (reply_text, session_id)]; after the turn the callback runs, and a
    callback that hands back content replaces the reply. *)
Definition run (agent : string -> value -> ext (string * value))
    (after_agent_callback : CallbackContext -> M (option Content))
    (ctx : CallbackContext) (message : string) (session_id : value)
  : M (string * value) :=
  reply <- lift_ext (agent message session_id) ;;
  replaced <- after_agent_callback ctx ;;
  ret (match replaced with
       | None => reply
       | Some c => (c, snd reply)
       end).

End Memory.

(* ===================================================================== *)
(** * agents/shared_tools/__init__.py and the tool factories               *)
(* ===================================================================== *)

Module SharedTools.

(** The functions that are wrapped as tools. *)
Inductive func :=
| google_search | get_forecast | get_anomalies | get_metric_history
| get_alert_rules | get_alert_history | run_pipeline | list_connectors.

#[global] Instance func_eq_dec : EqDecision func.
Proof. solve_decision. Defined.

(** [FunctionTool(func=..., name=..., description=...)] *)
Record FunctionTool := { wrapped : func; name : string; description : string }.








#[global] Instance FunctionTool_eq_dec : EqDecision FunctionTool.
Proof. solve_decision. Defined.



End SharedTools.

(* ===================================================================== *)
(** * agents/utils/logging.py                                             *)
(* ===================================================================== *)

Module Logging.

Inductive log_level := NOTSET | INFO_LEVEL | WARNING_LEVEL.

(** [logging.StreamHandler()] with its formatter's format string. *)
Record Handler := { format : string }.

(** What [get_logger] reads and writes of a [logging.Logger]. *)
Record Logger := { handlers : list Handler; level : log_level }.

(** The logger a name denotes: the empty name and "root" are both the root
    logger. *)
Definition logger_key (name : string) : string :=
  if String.eqb name "" then "root" else name.

(** [logging.getLogger(name)]: the logger the name denotes, created bare on
    first use (the root logger at WARNING, any other at NOTSET). *)
Definition getLogger (name : string) (registry : gmap string Logger)
  : Logger * gmap string Logger :=
  let key := logger_key name in
  match registry !! key with
  | Some logger => (logger, registry)
  | None =>
      let logger := {| handlers := [];
                       level := if String.eqb key "root" then WARNING_LEVEL
                                else NOTSET |} in
      (logger, <[key := logger]> registry)
  end.

(** A logger object as [log_agent_event] uses it, over some state [L] of
    the logging machinery: [info msg extra] and [warning msg]. *)
Record LoggerObject (L : Type) := {
  info : string -> gmap string value -> L -> outcome unit * L;
  warning : string -> L -> outcome unit * L
}.
Arguments info {L}.
Arguments warning {L}.

Section Utils.

Variable AGENT_SPIFFE_ID : string.
Variable AGENTFS_ENABLED : bool.

(** The logger as it is after the call, and the registry. *)
Definition get_logger (name : string) (registry : gmap string Logger)
  : Logger * gmap string Logger :=
  let (logger, registry) := getLogger name registry in
  match handlers logger with
  | [] =>
      let handler :=
        {| format := "%(asctime)s %(levelname)s [spiffe=" +:+ AGENT_SPIFFE_ID
                     +:+ "] %(name)s: %(message)s" |} in
      let logger := {| handlers := handlers logger ++ [handler];
                       level := INFO_LEVEL |} in
      (logger, <[logger_key name := logger]> registry)
  | _ :: _ => (logger, registry)
  end.

(** [{"event_type": ..., "spiffe_id": ..., "task_id": ..., **data}]: the
    entries of [data] come last and win. *)
Definition event_of (event_type : string) (data : gmap string value)
    (task_id : option string) : gmap string value :=
  data ∪ {[ "event_type" := VStr event_type;
            "spiffe_id" := VStr AGENT_SPIFFE_ID;
            "task_id" := from_option VStr VNone task_id ]}.

(** [_persist_to_agentfs]: a placeholder, [pass]. *)
Definition _persist_to_agentfs (event : gmap string value) : outcome unit := Return tt.

(** [log_agent_event], over the function that persists an event (the
    module's is [_persist_to_agentfs]). *)
Definition log_agent_event {L : Type} (persist : gmap string value -> outcome unit)
    (logger : LoggerObject L) (event_type : string) (data : gmap string value)
    (task_id : option string) (l : L) : outcome unit * L :=
  let event := event_of event_type data task_id in
  match info logger ("Agent event: " +:+ event_type) event l with
  | (Raise e, l') => (Raise e, l')
  | (Return _, l') =>
      if AGENTFS_ENABLED then
        match persist event with
        | Return _ => (Return tt, l')
        | Raise e =>
            if isinstance_Exception e
            then warning logger ("Failed to persist to AgentFS: " +:+ str_exn e) l'
            else (Raise e, l')
        end
      else (Return tt, l')
  end.

End Utils.

End Logging.

(* ===================================================================== *)
(** * Vocabulary of the specification                                     *)
(* ===================================================================== *)

Module Spec.

(** An agent name is registered when it is a key of [AGENT_ENGINE_IDS]. *)
Definition registered (ENV agent_name : string) : Prop :=
  agent_name ∈ dict_keys (Gateway.AGENT_ENGINE_IDS ENV).

(** The skill an agent's card declares under a name. *)
Definition declared_skill (ENV LOCATION agent_name skill_name : string)
  : option Gateway.AgentSkill :=
  card ← dict_get agent_name (Gateway.cards LOCATION ENV);
  List.find (fun sk => String.eqb (Gateway.skill_name sk) skill_name) (Gateway.skills card).

(** The field names an input schema lists under ["required"]. *)
Definition required_fields (schema : gmap string value) : list string :=
  match schema !! "required" with
  | Some (VList l) =>
      omap (fun v => match v with VStr f => Some f | _ => None end) l
  | _ => []
  end.

(** A payload that lacks one of the fields its schema requires. *)
Definition missing_required (schema payload : gmap string value) : bool :=
  existsb (fun f => bool_decide (payload !! f = None)) (required_fields schema).

(** Second spec-side reading of a tool's success value: "the operation's
    native payload merged with [success=true]". *)
Definition merged_with_success (payload : value) : value :=
  match payload with
  | VDict d => VDict (<["success" := VBool true]> d)
  | other => other
  end.


(** A failure of the transport under a tool: the request itself (timeout,
    connection), the status check (non-2xx), or the decoding of the body
    (malformed response). *)
Inductive transport_failure (x : ext Tools.Response) (s : state) (e : exn) : Prop :=
| request_failed t :
    x (clock s) (ticks s) = (Raise e, t) -> transport_failure x s e
| status_rejected r t :
    x (clock s) (ticks s) = (Return r, t) ->
    Tools.raise_for_status r = Raise e -> transport_failure x s e
| body_malformed r t :
    x (clock s) (ticks s) = (Return r, t) ->
    Tools.raise_for_status r = Return tt ->
    Tools.json r = Raise e -> transport_failure x s e.

(** A transport call that succeeds with payload [v]. *)
Definition transport_success (x : ext Tools.Response) (s : state) (v : value) : Prop :=
  exists r t, x (clock s) (ticks s) = (Return r, t) /\
              Tools.raise_for_status r = Return tt /\ Tools.json r = Return v.

(** The entry a task submission leaves in the dispatch trace. *)
Definition task_call (py_repr : value -> string) (agent_engine_id : string)
    (request : Gateway.TaskRequest) : call :=
  {| call_agent_engine_id := agent_engine_id;
     call_message := Gateway.task_message py_repr request;
     call_session_id := Gateway.task_session request |}.

(** The clock reading [submit_task] formats into the task id of a completed
    task: the first one after the backend has answered. *)
Definition id_reading (py_repr : value -> string) (c : Gateway.BackendAgentClient)
    (agent_engine_id : string) (request : Gateway.TaskRequest) (s : state) : datetime :=
  clock s (snd (Gateway.send_message c agent_engine_id
                  (Gateway.task_message py_repr request)
                  (Gateway.task_session request) (clock s) (ticks s))).

(** What a tool does under its [try]: the transport call, the status check,
    the decoding. *)
Definition underlying (x : ext Tools.Response) : M value :=
  response <- lift_ext x ;; Tools.checked_json response.

(** The fields a tool adds to its failure value besides [error] and
    [success]. *)
Definition failure_defaults (t : Tools.http_tool) : gmap string value :=
  match t with
  | Tools.GetForecast _ _ _ _ => ∅
  | Tools.GetAnomalies _ _ _ _ => {[ "anomalies" := VList [] ]}
  | Tools.GetMetricHistory _ _ _ => {[ "values" := VList [] ]}
  | Tools.GetAlertRules _ => {[ "rules" := VList [] ]}
  | Tools.GetAlertHistory _ _ _ => {[ "events" := VList [] ]}
  | Tools.RunPipeline _ _ => ∅
  end.

(** Two clock readings that agree down to the second. *)
Definition same_second (d1 d2 : datetime) : Prop :=
  year d1 = year d2 /\ month d1 = month d2 /\ day d1 = day d2 /\
  hour d1 = hour d2 /\ minute d1 = minute d2 /\ second d1 = second d2.

End Spec.

(* ===================================================================== *)
(** * Stubs used to exercise the handlers                                 *)
(* ===================================================================== *)

Module Fixtures.

(** A backend client whose [send_message] always raises [e]. *)
Definition failing_client (e : exn) : Gateway.BackendAgentClient := {|
  Gateway.send_message := fun _ _ _ _ t => (Raise e, t);
  Gateway.get_agent_status := fun _ _ t => (Return "unavailable", t)
|}.


Definition stub_client : Gateway.BackendAgentClient :=
  Gateway.AgentEngineClient "intentvision" "us-central1".

Definition test_repr (v : value) : string := "{...}".

Definition test_render_error (content : gmap string value) : string :=
  "content is not JSON compliant".

Definition noon : datetime :=
  {| year := 2024; month := 1; day := 15;
     hour := 12; minute := 0; second := 0; microsecond := 0 |}.

(** A clock that advances one microsecond per reading. *)
Definition us_clock (n : nat) : datetime :=
  {| year := 2024; month := 1; day := 15;
     hour := 12; minute := 0; second := 0;
     microsecond := Z.of_nat n |}.

Definition s0 : state := {| clock := us_clock; ticks := 0; sent := []; log := [] |}.

Definition explain_forecast_request (payload : gmap string value) : Gateway.TaskRequest :=
  {| Gateway.skill := "Explain Forecast"; Gateway.input := payload;
     Gateway.session_id := None; Gateway.trace_id := None |}.

Definition chat_request (body : gmap string value) : Gateway.Request :=
  {| Gateway.json := Return (VDict body) |}.

Definition hello_body : gmap string value :=
  {[ "message" := VStr "Hello"; "org_id" := VStr "test-org" ]}.

Definition ok_response (payload : value) : Tools.Response :=
  {| Tools.raise_for_status := Return tt; Tools.json := Return payload |}.

Definition const_httpx (r : outcome Tools.Response) : Tools.Httpx :=
  {| Tools.get := fun _ _ _ _ _ t => (r, t);
     Tools.post := fun _ _ _ _ _ t => (r, t) |}.

Definition httpx_timeout : Tools.Httpx := const_httpx (Raise (Exception "timed out")).

Definition forecast_payload : value :=
  VDict {[ "forecast" := VList []; "backend" := VStr "statistical" ]}.

Definition failing_memory (e : exn) : Memory.MemoryService :=
  {| Memory.add_session_to_memory := fun _ _ t => (Raise e, t) |}.

Definition saving_ctx (svc : Memory.MemoryService) : Memory.CallbackContext :=
  {| Memory.invocation_context :=
       Some {| Memory.memory_service := Some svc;
               Memory.session := Some {| Memory.id := "sess-1" |} |} |}.

Definition echo_agent (message : string) (session_id : value) : ext (string * value) :=
  fun _ t => (Return ("echo: " +:+ message, session_id), S t).

(** A backend client whose [get_agent_status] always raises [e]. *)
Definition status_failing_client (e : exn) : Gateway.BackendAgentClient := {|
  Gateway.send_message := fun _ _ _ _ t => (Return ∅, t);
  Gateway.get_agent_status := fun _ _ t => (Raise e, t)
|}.

(** A backend client that cannot reach one agent: [get_agent_status] raises
    [e] for the engine id [bad] and answers for every other. *)
Definition one_agent_down (bad : string) (e : exn) : Gateway.BackendAgentClient := {|
  Gateway.send_message := fun _ _ _ _ t => (Return ∅, t);
  Gateway.get_agent_status := fun id _ t =>
    if String.eqb id bad then (Raise e, t) else (Return "available", t)
|}.

Definition saving_memory : Memory.MemoryService :=
  {| Memory.add_session_to_memory := fun _ _ t => (Return tt, S t) |}.

(** A logger that keeps what it is given. *)
Definition list_logger : Logging.LoggerObject (list (string * gmap string value)) :=
  {| Logging.info := fun msg extra l => (Return tt, l ++ [(msg, extra)]);
     Logging.warning := fun msg l => (Return tt, l ++ [(msg, ∅)]) |}.

End Fixtures.

(* ===================================================================== *)
(** * Properties                                                          *)
(* ===================================================================== *)

(** ** Generic facts *)

Lemma dict_get_keys {V} (k : string) (d : list (string * V)) :
  is_Some (dict_get k d) <-> k ∈ dict_keys d.
Proof.
  induction d as [|[k' v] d IH]; simpl.
  - split; [intros [? [=]] | intros H; inversion H].
  - destruct (String.eqb_spec k k') as [->|Hne].
    + split; [intros _; left | eauto].
    + rewrite IH. split; [intros H; by right | intros H].
      inversion H; subst; [congruence | done].
Qed.

Lemma dict_get_None {V} (k : string) (d : list (string * V)) :
  dict_get k d = None <-> k ∉ dict_keys d.
Proof.
  rewrite <- dict_get_keys. destruct (dict_get k d) as [v|].
  - split; [done | intros H; destruct H; eauto].
  - split; [intros _ [? [=]] | done].
Qed.

(** Lookups in dict displays with literal keys. *)
Ltac map_lookup :=
  repeat first
    [ rewrite lookup_insert_eq
    | rewrite lookup_insert_ne by done
    | rewrite lookup_singleton_eq
    | rewrite lookup_singleton_ne by done
    | rewrite lookup_empty ];
  simpl.

(** ** Strings and timestamps *)

Lemma length_app_string (s1 s2 : string) :
  String.length (s1 +:+ s2) = String.length s1 + String.length s2.
Proof. induction s1 as [|a s1 IH]; simpl; [done | by rewrite IH]. Qed.

(** Appended strings with heads of equal length are equal piecewise. *)
Lemma app_string_inj (s1 s2 t1 t2 : string) :
  String.length s1 = String.length s2 ->
  s1 +:+ t1 = s2 +:+ t2 -> s1 = s2 /\ t1 = t2.
Proof.
  revert s2. induction s1 as [|a s1 IH]; intros [|b s2] Hlen Heq; simpl in *;
    try discriminate.
  - done.
  - injection Heq as -> Heq. destruct (IH s2) as [-> ->]; [lia | done | done].
Qed.

Lemma app_string_cancel (s t1 t2 : string) : s +:+ t1 = s +:+ t2 -> t1 = t2.
Proof. intros H. by destruct (app_string_inj s s t1 t2 eq_refl H). Qed.

Lemma app_snoc_inj (s1 s2 : string) (c1 c2 : ascii) :
  s1 +:+ String c1 "" = s2 +:+ String c2 "" -> s1 = s2 /\ c1 = c2.
Proof.
  revert s2. induction s1 as [|a s1 IH]; intros [|b s2] Heq; simpl in *.
  - by injection Heq as ->.
  - injection Heq as _ Heq. destruct s2; discriminate.
  - injection Heq as _ Heq. destruct s1; discriminate.
  - injection Heq as -> Heq. by destruct (IH _ Heq) as [-> ->].
Qed.

Lemma length_pad (k : nat) (n : Z) : String.length (pad k n) = k.
Proof.
  revert n. induction k as [|k IH]; intros n; simpl; [done|].
  rewrite length_app_string, IH; simpl; lia.
Qed.

Lemma digit_inj (a b : Z) : digit a = digit b -> (a mod 10 = b mod 10)%Z.
Proof.
  unfold digit. intros H.
  assert (Ha : (0 <= a mod 10 < 10)%Z) by (apply Z.mod_pos_bound; lia).
  assert (Hb : (0 <= b mod 10 < 10)%Z) by (apply Z.mod_pos_bound; lia).
  apply (f_equal N_of_ascii) in H.
  rewrite !N_ascii_embedding in H by lia. lia.
Qed.

(** Zero-padded printing is injective on the numbers that fit the width. *)
Lemma pad_inj (k : nat) (a b : Z) :
  (0 <= a < 10 ^ Z.of_nat k)%Z -> (0 <= b < 10 ^ Z.of_nat k)%Z ->
  pad k a = pad k b -> a = b.
Proof.
  revert a b. induction k as [|k IH]; intros a b Ha Hb Heq.
  - simpl in Ha, Hb. lia.
  - simpl in Heq. apply app_snoc_inj in Heq as [Hhi Hlo].
    apply digit_inj in Hlo.
    rewrite Nat2Z.inj_succ, Z.pow_succ_r in Ha, Hb by lia.
    assert (a / 10 = b / 10)%Z as Hq.
    { apply IH; [| |done]; split;
        try (apply Z.div_pos; lia); apply Z.div_lt_upper_bound; lia. }
    rewrite (Z.div_mod a 10), (Z.div_mod b 10) by lia. lia.
Qed.

Lemma strftime_length (d : datetime) : String.length (strftime_YmdHMS d) = 14.
Proof.
  unfold strftime_YmdHMS. by rewrite !length_app_string, !length_pad.
Qed.

(** [%Y%m%d%H%M%S] tells apart exactly the readings of different seconds. *)
Lemma strftime_inj (d1 d2 : datetime) :
  valid_datetime d1 -> valid_datetime d2 ->
  strftime_YmdHMS d1 = strftime_YmdHMS d2 <-> Spec.same_second d1 d2.
Proof.
  intros V1 V2. unfold Spec.same_second. split.
  - unfold strftime_YmdHMS. intros H.
    unfold valid_datetime in V1, V2.
    repeat (apply app_string_inj in H as [?%pad_inj H];
            [| simpl; lia | simpl; lia | by rewrite !length_pad]).
    apply pad_inj in H; [| simpl; lia | simpl; lia].
    done.
  - intros (Hy & Hmo & Hd & Hh & Hmi & Hs). unfold strftime_YmdHMS.
    by rewrite Hy, Hmo, Hd, Hh, Hmi, Hs.
Qed.

(** ** The gateway *)

Section GatewayProperties.

Variables LOCATION ENV : string.
Variable py_repr : value -> string.
Variable render_error : gmap string value -> string.

Local Abbreviation AGENT_ENGINE_IDS := (Gateway.AGENT_ENGINE_IDS ENV).
Local Abbreviation submit_task := (Gateway.submit_task ENV py_repr).
Local Abbreviation get_agent_card := (Gateway.get_agent_card LOCATION ENV).
Local Abbreviation chat_with_orchestrator :=
  (Gateway.chat_with_orchestrator ENV py_repr render_error).
Local Abbreviation task_message := (Gateway.task_message py_repr).
Local Abbreviation chat_message := (Gateway.chat_message py_repr).
Local Abbreviation task_call := (Spec.task_call py_repr).

Lemma registered_cases (agent_name : string) :
  Spec.registered ENV agent_name <->
  agent_name = "orchestrator" \/ agent_name = "metric-analyst" \/
  agent_name = "alert-tuner" \/ agent_name = "onboarding-coach".
Proof.
  unfold Spec.registered; simpl.
  rewrite !elem_of_cons, elem_of_nil. tauto.
Qed.

Lemma registered_engine_id (agent_name : string) :
  Spec.registered ENV agent_name ->
  exists agent_engine_id, dict_get agent_name AGENT_ENGINE_IDS = Some agent_engine_id.
Proof. intros H. by apply dict_get_keys in H. Qed.

(** [submit_task] on a registered agent, by what the backend does. *)
Lemma submit_task_run c agent_name agent_engine_id request s :
  dict_get agent_name AGENT_ENGINE_IDS = Some agent_engine_id ->
  submit_task (Some c) agent_name request s =
  let s1 := add_sent (task_call agent_engine_id request) s in
  match Gateway.send_message c agent_engine_id (task_message request)
          (Gateway.task_session request) (clock s) (ticks s) with
  | (Return response, t) =>
      (Return {| Gateway.task_id :=
                   "task-" +:+ agent_name +:+ "-" +:+ strftime_YmdHMS (clock s t);
                 Gateway.status := "completed";
                 Gateway.created_at := isoformat (clock s (S t));
                 Gateway.updated_at := isoformat (clock s (S (S t)));
                 Gateway.result := Some response;
                 Gateway.error := None |},
       set_ticks (S (S (S t))) s1)
  | (Raise e, t) =>
      if isinstance_Exception e then
        (Return {| Gateway.task_id := "task-" +:+ agent_name +:+ "-error";
                   Gateway.status := "failed";
                   Gateway.created_at := isoformat (clock s t);
                   Gateway.updated_at := isoformat (clock s (S t));
                   Gateway.result := None;
                   Gateway.error := Some (str_exn e) |},
         set_ticks (S (S t)) s1)
      else (Raise e, set_ticks t s1)
  end.
Proof.
  intros Hid. unfold Gateway.submit_task. rewrite Hid.
  unfold try_except, bind, Gateway.call_send_message, lift_ext; simpl.
  destruct (Gateway.send_message c _ _ _ _ _) as [[response|e] t]; simpl.
  - reflexivity.
  - destruct (isinstance_Exception e); reflexivity.
Qed.

(** Before [lifespan] has run the client is [None]: the attribute access
    fails inside the [try] and the task is reported failed. *)
Lemma submit_task_no_client agent_name agent_engine_id request s :
  dict_get agent_name AGENT_ENGINE_IDS = Some agent_engine_id ->
  submit_task None agent_name request s =
  (Return {| Gateway.task_id := "task-" +:+ agent_name +:+ "-error";
             Gateway.status := "failed";
             Gateway.created_at := isoformat (clock s (ticks s));
             Gateway.updated_at := isoformat (clock s (S (ticks s)));
             Gateway.result := None;
             Gateway.error := Some "'NoneType' object has no attribute 'send_message'" |},
   set_ticks (S (S (ticks s))) s).
Proof.
  intros Hid. unfold Gateway.submit_task. rewrite Hid. reflexivity.
Qed.


(** C2.  On a registered agent, whatever the client, the TaskStatus that
    [submit_task] returns has status "completed" or "failed", never
    "pending" or "running"; and it does return one unless the backend
    raised something that is not an [Exception]. *)
Theorem submit_task_status_terminal agent_client agent_name request s :
  Spec.registered ENV agent_name ->
  match fst (submit_task agent_client agent_name request s) with
  | Return ts =>
      (Gateway.status ts = "completed" \/ Gateway.status ts = "failed") /\
      Gateway.status ts <> "pending" /\ Gateway.status ts <> "running"
  | Raise e => isinstance_Exception e = false
  end.
Proof.
  intros Hreg. destruct (registered_engine_id _ Hreg) as [agent_engine_id Hid].
  destruct agent_client as [c|].
  - rewrite (submit_task_run _ _ _ _ _ Hid); simpl.
    destruct (Gateway.send_message c _ _ _ _ _) as [[response|e] t]; simpl.
    + split; [by left | split; discriminate].
    + destruct (isinstance_Exception e) eqn:He; simpl; [|done].
      split; [by right | split; discriminate].
  - rewrite (submit_task_no_client _ _ _ _ Hid); simpl.
    split; [by right | split; discriminate].
Qed.

(** C3.  For a name that is not registered, [get_agent_card] and
    [submit_task] both raise HTTPException 404 and leave the state as it
    was: nothing is dispatched, no clock is read, no task is built. *)
Theorem unregistered_agent_404 agent_client agent_name request s :
  ~ Spec.registered ENV agent_name ->
  get_agent_card agent_name s =
    (Raise (HTTPException 404 ("Agent not found: " +:+ agent_name)), s) /\
  submit_task agent_client agent_name request s =
    (Raise (HTTPException 404 ("Agent not found: " +:+ agent_name)), s) /\
  Gateway.http_status (fst (get_agent_card agent_name s)) = Some 404%Z /\
  Gateway.http_status (fst (submit_task agent_client agent_name request s)) = Some 404%Z.
Proof.
  intros Hunreg. apply dict_get_None in Hunreg.
  unfold Gateway.get_agent_card, Gateway.submit_task. rewrite Hunreg.
  repeat split.
Qed.

(** On a registered agent with a client in place, [submit_task] sends
    exactly one message to the backend, built from the skill name and the
    input as they came. *)
Lemma submit_task_sent c agent_name agent_engine_id request s :
  dict_get agent_name AGENT_ENGINE_IDS = Some agent_engine_id ->
  sent (snd (submit_task (Some c) agent_name request s)) =
  sent s ++ [task_call agent_engine_id request].
Proof.
  intros Hid. rewrite (submit_task_run _ _ _ _ _ Hid); simpl.
  destruct (Gateway.send_message c _ _ _ _ _) as [[response|e] t]; simpl; [done|].
  by destruct (isinstance_Exception e).
Qed.

(** C6, as the code has it.  [submit_task] checks the agent name and
    nothing else: for every request on a registered agent, whatever its
    skill and input and whether or not the input has the fields the skill's
    input schema requires, exactly one message is dispatched to the
    backend when the gateway's client is in place; while the client is
    [None] nothing is dispatched, whatever the input. *)
Theorem submit_task_dispatches_unvalidated agent_client agent_name request s :
  Spec.registered ENV agent_name ->
  exists agent_engine_id,
    dict_get agent_name AGENT_ENGINE_IDS = Some agent_engine_id /\
    sent (snd (submit_task agent_client agent_name request s)) =
    sent s ++ match agent_client with
              | Some _ => [task_call agent_engine_id request]
              | None => []
              end.
Proof.
  intros Hreg. destruct (registered_engine_id _ Hreg) as [agent_engine_id Hid].
  exists agent_engine_id. split; [done|]. destruct agent_client as [c|].
  - by apply submit_task_sent.
  - rewrite (submit_task_no_client _ _ _ _ Hid); simpl. by rewrite app_nil_r.
Qed.

(** No registered name, followed by a dash, starts another one: the agent
    name can be read back from a task id. *)
Lemma task_id_agent_inj (a1 a2 x1 x2 : string) :
  Spec.registered ENV a1 -> Spec.registered ENV a2 ->
  "task-" +:+ a1 +:+ "-" +:+ x1 = "task-" +:+ a2 +:+ "-" +:+ x2 ->
  a1 = a2 /\ x1 = x2.
Proof.
  intros H1%registered_cases H2%registered_cases Heq.
  destruct H1 as [->|[->|[->| ->]]], H2 as [->|[->|[->| ->]]];
    first [ split; [reflexivity|];
            by do 3 apply app_string_cancel in Heq
          | simpl in Heq; discriminate Heq ].
Qed.

(** C7, as the code has it.  The task id is "task-<agent>-" followed by the
    UTC time to the second for a completed task, and by "error" for a
    failed one.  So two submissions on registered agents get the same task
    id exactly when they name the same agent and either both fail or both
    complete with id readings within the same second. *)
Theorem task_id_collision c1 c2 a1 a2 id1 id2 r1 r2 s1 s2 t1 t2 :
  dict_get a1 AGENT_ENGINE_IDS = Some id1 ->
  dict_get a2 AGENT_ENGINE_IDS = Some id2 ->
  valid_datetime (Spec.id_reading py_repr c1 id1 r1 s1) ->
  valid_datetime (Spec.id_reading py_repr c2 id2 r2 s2) ->
  fst (submit_task (Some c1) a1 r1 s1) = Return t1 ->
  fst (submit_task (Some c2) a2 r2 s2) = Return t2 ->
  Gateway.task_id t1 = Gateway.task_id t2 <->
  a1 = a2 /\ Gateway.status t1 = Gateway.status t2 /\
  (Gateway.status t1 = "completed" ->
   Spec.same_second (Spec.id_reading py_repr c1 id1 r1 s1)
                    (Spec.id_reading py_repr c2 id2 r2 s2)).
Proof.
  intros Hid1 Hid2 V1 V2.
  assert (Hreg1 : Spec.registered ENV a1) by (apply dict_get_keys; eauto).
  assert (Hreg2 : Spec.registered ENV a2) by (apply dict_get_keys; eauto).
  rewrite (submit_task_run _ _ _ _ _ Hid1), (submit_task_run _ _ _ _ _ Hid2).
  unfold Spec.id_reading in *; simpl.
  destruct (Gateway.send_message c1 _ _ _ _ _) as [[rep1|e1] n1];
  destruct (Gateway.send_message c2 _ _ _ _ _) as [[rep2|e2] n2]; simpl in V1, V2 |- *;
    try destruct (isinstance_Exception e1); try destruct (isinstance_Exception e2);
    simpl; intros Ht1 Ht2; try discriminate;
    injection Ht1 as <-; injection Ht2 as <-; simpl.
  - (* both completed *)
    split.
    + intros [-> Hts]%task_id_agent_inj; [|done..].
      split; [done | split; [done | intros _]]. by apply strftime_inj.
    + intros (-> & _ & Hsec). specialize (Hsec eq_refl).
      apply strftime_inj in Hsec; [|done..]. by rewrite Hsec.
  - (* completed, failed *)
    split.
    + intros [_ Hts]%task_id_agent_inj; [|done..].
      apply (f_equal String.length) in Hts. rewrite strftime_length in Hts.
      discriminate.
    + intros (_ & [=] & _).
  - (* failed, completed *)
    split.
    + intros [_ Hts]%task_id_agent_inj; [|done..].
      apply (f_equal String.length) in Hts. rewrite strftime_length in Hts.
      discriminate.
    + intros (_ & [=] & _).
  - (* both failed *)
    split.
    + intros [-> _]%task_id_agent_inj; [|done..].
      split; [done | split; [done | discriminate]].
    + by intros (-> & _).
Qed.

(** [chat_with_orchestrator] on a JSON object, by its checks. *)
Lemma chat_run agent_client request body s :
  Gateway.json request = Return (VDict body) ->
  chat_with_orchestrator agent_client request s =
  let message := default (VStr "") (body !! "message") in
  let org_id := default (VStr "") (body !! "org_id") in
  if negb (truthy message) then
    (Raise (HTTPException 400 "message is required"), s)
  else if negb (truthy org_id) then
    (Raise (HTTPException 400 "org_id is required"), s)
  else
    (response <- Gateway.call_send_message agent_client
                   ("intentvision-orchestrator-" +:+ ENV)
                   (chat_message org_id message)
                   (default VNone (body !! "session_id")) ;;
     Gateway.JSONResponse render_error (Gateway.chat_content response)) s.
Proof.
  intros Hjson. unfold Gateway.chat_with_orchestrator, lift_outcome.
  unfold bind at 1. rewrite Hjson. simpl.
  unfold bind at 1 2 3; simpl.
  destruct (truthy (default (VStr "") (body !! "message"))); simpl; [|done].
  by destruct (truthy (default (VStr "") (body !! "org_id"))).
Qed.



(** C10.  With [message] and [org_id] both present, an exception raised by
    the backend client's [send_message] leaves [chat_with_orchestrator] as
    it is (FastAPI turns an [Exception] into a 500), where [submit_task]
    with the same client returns a failed TaskStatus. *)
Theorem chat_backend_exception_escapes c request body s e :
  Gateway.json request = Return (VDict body) ->
  truthy (default (VStr "") (body !! "message")) = true ->
  truthy (default (VStr "") (body !! "org_id")) = true ->
  (forall id msg sid clk t, fst (Gateway.send_message c id msg sid clk t) = Raise e) ->
  fst (chat_with_orchestrator (Some c) request s) = Raise e /\
  (forall m, e = Exception m ->
     Gateway.http_status (fst (chat_with_orchestrator (Some c) request s)) = Some 500%Z) /\
  (isinstance_Exception e = true ->
   forall agent_name task_request,
     Spec.registered ENV agent_name ->
     exists ts,
       fst (submit_task (Some c) agent_name task_request s) = Return ts /\
       Gateway.status ts = "failed" /\ Gateway.error ts = Some (str_exn e)).
Proof.
  intros Hjson Hm Ho Hfail.
  assert (Hchat : fst (chat_with_orchestrator (Some c) request s) = Raise e).
  { rewrite (chat_run _ _ _ _ Hjson); simpl. rewrite Hm, Ho; simpl.
    unfold bind, Gateway.call_send_message, lift_ext; simpl.
    match goal with |- context [Gateway.send_message c ?i ?m ?x ?k ?n] =>
      specialize (Hfail i m x k n);
      destruct (Gateway.send_message c i m x k n) as [[reply|e'] t'] end;
      simpl in *; congruence. }
  split; [done|]. split.
  - intros m ->. by rewrite Hchat.
  - intros He agent_name task_request Hreg.
    destruct (registered_engine_id _ Hreg) as [agent_engine_id Hid].
    rewrite (submit_task_run _ _ _ _ _ Hid); simpl.
    match goal with |- context [Gateway.send_message c ?i ?m ?x ?k ?n] =>
      specialize (Hfail i m x k n);
      destruct (Gateway.send_message c i m x k n) as [[reply|e'] t'] end;
      simpl in Hfail; [discriminate|]. injection Hfail as ->.
    rewrite He; simpl. eauto.
Qed.

End GatewayProperties.

(** *** The gateway on concrete requests *)

Import Fixtures.

Lemma metric_analyst_registered : Spec.registered "dev" "metric-analyst".
Proof. unfold Spec.registered; simpl. repeat constructor. Qed.

Lemma unknown_agent_unregistered : ~ Spec.registered "dev" "unknown-agent".
Proof. intros H. apply registered_cases in H. by destruct H as [|[|[|]]]. Qed.


Lemma submit_task_status_terminal_witness :
  Spec.registered "dev" "metric-analyst" /\
  match fst (Gateway.submit_task "dev" test_repr (Some stub_client)
               "metric-analyst" (explain_forecast_request ∅) s0) with
  | Return ts =>
      (Gateway.status ts = "completed" \/ Gateway.status ts = "failed") /\
      Gateway.status ts <> "pending" /\ Gateway.status ts <> "running"
  | Raise e => isinstance_Exception e = false
  end.
Proof.
  split; [exact metric_analyst_registered|].
  apply (submit_task_status_terminal "dev" test_repr (Some stub_client)
           "metric-analyst" (explain_forecast_request ∅) s0).
  exact metric_analyst_registered.
Defined.

Lemma unregistered_agent_404_witness :
  Gateway.http_status
    (fst (Gateway.get_agent_card "us-central1" "dev" "unknown-agent" s0)) = Some 404%Z /\
  Gateway.submit_task "dev" test_repr (Some stub_client) "unknown-agent"
    (explain_forecast_request ∅) s0 =
  (Raise (HTTPException 404 "Agent not found: unknown-agent"), s0).
Proof.
  destruct (unregistered_agent_404 "us-central1" "dev" test_repr (Some stub_client)
              "unknown-agent" (explain_forecast_request ∅) s0
              unknown_agent_unregistered) as (_ & Hsubmit & Hcard & _).
  split; [exact Hcard | exact Hsubmit].
Defined.

(** C6, counterexample.  The card of metric-analyst declares "Explain
    Forecast" with required fields [org_id] and [metric_key]; a submission
    with an empty input is dispatched to the backend all the same and
    completes. *)
Lemma missing_required_field_is_dispatched :
  let request := explain_forecast_request ∅ in
  let run := Gateway.submit_task "dev" test_repr (Some stub_client)
               "metric-analyst" request s0 in
  (exists sk,
     Spec.declared_skill "dev" "us-central1" "metric-analyst" "Explain Forecast" = Some sk /\
     Spec.required_fields (Gateway.input_schema sk) = ["org_id"; "metric_key"] /\
     Spec.missing_required (Gateway.input_schema sk) (Gateway.input request) = true) /\
  sent s0 = [] /\
  sent (snd run) =
    [ {| call_agent_engine_id := "intentvision-metric-analyst-dev";
         call_message := "Execute skill 'Explain Forecast' with input: {...}";
         call_session_id := VNone |} ] /\
  (exists ts, fst run = Return ts /\ Gateway.status ts = "completed").
Proof.
  repeat split.
  - eexists. split; [reflexivity|]. split; reflexivity.
  - eexists. split; reflexivity.
Qed.

Lemma submit_task_dispatches_unvalidated_witness :
  exists agent_engine_id,
    dict_get "metric-analyst" (Gateway.AGENT_ENGINE_IDS "dev") = Some agent_engine_id /\
    sent (snd (Gateway.submit_task "dev" test_repr (Some stub_client)
                 "metric-analyst" (explain_forecast_request ∅) s0)) =
    sent s0 ++ [Spec.task_call test_repr agent_engine_id (explain_forecast_request ∅)].
Proof.
  apply (submit_task_dispatches_unvalidated "dev" test_repr (Some stub_client)
           "metric-analyst" (explain_forecast_request ∅) s0).
  exact metric_analyst_registered.
Defined.

(** C7, counterexample.  Two submissions to the orchestrator, one after the
    other, both completed by the stub client within the same second: two
    different task records with one task id. *)
Lemma task_id_not_unique :
  let submit := Gateway.submit_task "dev" test_repr (Some stub_client)
                  "orchestrator" (explain_forecast_request ∅) in
  let first := submit s0 in
  let second := submit (snd first) in
  exists t1 t2,
    fst first = Return t1 /\ fst second = Return t2 /\
    Gateway.created_at t1 <> Gateway.created_at t2 /\
    Gateway.task_id t1 = "task-orchestrator-20240115120000" /\
    Gateway.task_id t1 = Gateway.task_id t2.
Proof.
  simpl. eexists _, _.
  split; [vm_compute; reflexivity|]. split; [vm_compute; reflexivity|].
  split; [by vm_compute|]. split; reflexivity.
Qed.

Lemma task_id_collision_witness :
  let submit := Gateway.submit_task "dev" test_repr (Some stub_client)
                  "orchestrator" (explain_forecast_request ∅) in
  let later := set_ticks 4 s0 in
  exists t1 t2,
    fst (submit s0) = Return t1 /\ fst (submit later) = Return t2 /\
    (Gateway.task_id t1 = Gateway.task_id t2 <->
     "orchestrator" = "orchestrator" /\ Gateway.status t1 = Gateway.status t2 /\
     (Gateway.status t1 = "completed" ->
      Spec.same_second
        (Spec.id_reading test_repr stub_client "intentvision-orchestrator-dev"
           (explain_forecast_request ∅) s0)
        (Spec.id_reading test_repr stub_client "intentvision-orchestrator-dev"
           (explain_forecast_request ∅) later))).
Proof.
  simpl. eexists _, _.
  split; [vm_compute; reflexivity|]. split; [vm_compute; reflexivity|].
  apply (task_id_collision "dev" test_repr stub_client stub_client
           "orchestrator" "orchestrator"
           "intentvision-orchestrator-dev" "intentvision-orchestrator-dev"
           (explain_forecast_request ∅) (explain_forecast_request ∅)
           s0 (set_ticks 4 s0));
    try reflexivity; cbv; repeat split; discriminate.
Defined.



Lemma chat_backend_exception_escapes_witness :
  fst (Gateway.chat_with_orchestrator "dev" test_repr test_render_error
         (Some (failing_client (Exception "boom")))
         (chat_request hello_body) s0) = Raise (Exception "boom").
Proof.
  destruct (chat_backend_exception_escapes "dev" test_repr test_render_error
              (failing_client (Exception "boom")) (chat_request hello_body)
              hello_body s0 (Exception "boom") eq_refl) as (Hescape & _).
  - reflexivity.
  - reflexivity.
  - intros; reflexivity.
  - exact Hescape.
Defined.

(** ** The tools *)

Section ToolProperties.

Variables INTENTVISION_API_URL INTENTVISION_API_KEY : string.
Variable httpx : Tools.Httpx.

Local Abbreviation invoke := (Tools.invoke INTENTVISION_API_URL INTENTVISION_API_KEY httpx).
Local Abbreviation transport_call :=
  (Tools.transport_call INTENTVISION_API_URL INTENTVISION_API_KEY httpx).

(** Every HTTP-backed tool is its transport call under one and the same
    [try ... except Exception]. *)
Lemma invoke_try (t : Tools.http_tool) :
  invoke t =
  try_except (Spec.underlying (transport_call t))
    (fun e => ret (Tools.failure e (Spec.failure_defaults t))).
Proof. by destruct t. Qed.

Lemma underlying_failure x s e :
  Spec.transport_failure x s e -> exists s', Spec.underlying x s = (Raise e, s').
Proof.
  unfold Spec.underlying, Tools.checked_json, bind, lift_ext, lift_outcome.
  intros [t Hx | r t Hx Hst | r t Hx Hst Hjs]; rewrite Hx; simpl.
  - eauto.
  - rewrite Hst. eauto.
  - rewrite Hst, Hjs. eauto.
Qed.

Lemma underlying_success x s v :
  Spec.transport_success x s v -> exists s', Spec.underlying x s = (Return v, s').
Proof.
  unfold Spec.underlying, Tools.checked_json, bind, lift_ext, lift_outcome.
  intros (r & t & Hx & Hst & Hjs). rewrite Hx; simpl. rewrite Hst, Hjs. eauto.
Qed.

Lemma failure_lookup e extra :
  exists d, Tools.failure e extra = VDict d /\
            d !! "success" = Some (VBool false) /\
            d !! "error" = Some (VStr (str_exn e)).
Proof. eexists. split; [reflexivity|]. split; by map_lookup. Qed.

(** C4.  For each of the six HTTP-backed tools, a transport failure (the
    request, the status check or the decoding raising an exception) is
    caught in the tool, which returns a dict with [success = False] and
    [error = str(e)]; and no [Exception] ever leaves a tool. *)
Theorem tool_failure_folded (t : Tools.http_tool) (s : state) :
  (forall e,
     Spec.transport_failure (transport_call t) s e ->
     isinstance_Exception e = true ->
     exists d,
       fst (invoke t s) = Return (VDict d) /\
       d !! "success" = Some (VBool false) /\
       d !! "error" = Some (VStr (str_exn e))) /\
  (forall e, fst (invoke t s) = Raise e -> isinstance_Exception e = false).
Proof.
  rewrite invoke_try. unfold try_except. split.
  - intros e [s' Hu]%underlying_failure He. rewrite Hu, He; simpl.
    destruct (failure_lookup e (Spec.failure_defaults t)) as (d & -> & Hs & Herr).
    eauto.
  - intros e. destruct (Spec.underlying _ s) as [[v|e'] s']; simpl; [done|].
    destruct (isinstance_Exception e') eqn:He'; simpl; [done|].
    by intros [= <-].
Qed.

(** C5, as the code has it.  On a successful HTTP call a tool returns the
    operation's payload as it came: nothing is merged into it. *)
Theorem tool_success_payload (t : Tools.http_tool) (s : state) (v : value) :
  Spec.transport_success (transport_call t) s v ->
  fst (invoke t s) = Return v.
Proof.
  intros [s' Hu]%underlying_success.
  rewrite invoke_try. unfold try_except. by rewrite Hu.
Qed.

End ToolProperties.

Lemma tool_failure_folded_witness :
  exists d,
    fst (Tools.get_forecast "http://localhost:8080" "" httpx_timeout
           "org-123" "revenue.daily" 7 "statistical" s0) = Return (VDict d) /\
    d !! "success" = Some (VBool false) /\
    d !! "error" = Some (VStr "timed out").
Proof.
  destruct (tool_failure_folded "http://localhost:8080" "" httpx_timeout
              (Tools.GetForecast "org-123" "revenue.daily" 7 "statistical") s0)
    as [Hfold _].
  apply (Hfold (Exception "timed out")); [|reflexivity].
  by apply Spec.request_failed with (t := 0).
Defined.

(** C5, counterexample.  The platform answers [get_forecast] with a
    forecast; the tool returns that dict, which has no [success] key and is
    not the payload merged with [success = True]. *)
Lemma tool_success_not_merged :
  let httpx := const_httpx (Return (ok_response forecast_payload)) in
  let returned := fst (Tools.get_forecast "http://localhost:8080" "" httpx
                         "org-123" "revenue.daily" 7 "statistical" s0) in
  Spec.transport_success
    (Tools.transport_call "http://localhost:8080" "" httpx
       (Tools.GetForecast "org-123" "revenue.daily" 7 "statistical")) s0 forecast_payload /\
  returned = Return forecast_payload /\
  returned <> Return (Spec.merged_with_success forecast_payload).
Proof.
  simpl. split; [|split].
  - by exists (ok_response forecast_payload), 0.
  - reflexivity.
  - intros H.
    apply (f_equal (fun o => match o with
                             | Return (VDict d) => d !! "success"
                             | _ => None
                             end)) in H.
    vm_compute in H. discriminate H.
Qed.

Lemma tool_success_payload_witness :
  fst (Tools.get_forecast "http://localhost:8080" ""
         (const_httpx (Return (ok_response forecast_payload)))
         "org-123" "revenue.daily" 7 "statistical" s0) = Return forecast_payload.
Proof.
  apply (tool_success_payload "http://localhost:8080" ""
           (const_httpx (Return (ok_response forecast_payload)))
           (Tools.GetForecast "org-123" "revenue.daily" 7 "statistical") s0).
  by exists (ok_response forecast_payload), 0.
Defined.

(** ** The session-memory callback *)

Section MemoryProperties.

Variable AGENT_SPIFFE_ID : string.
Variable INFO_ENABLED : bool.

Local Abbreviation auto_save_session_to_memory :=
  (Memory.auto_save_session_to_memory AGENT_SPIFFE_ID INFO_ENABLED).

(** C9.  The callback never raises an [Exception] and always evaluates to
    [None], whatever its context.  When saving the session fails with an
    exception [e], the callback returns normally, the only trace is one
    ERROR log record, nothing is dispatched, and the agent's turn returns
    the reply the agent produced. *)
Theorem auto_save_failure_swallowed :
  (forall ctx s,
     match fst (auto_save_session_to_memory ctx s) with
     | Return replaced => replaced = None
     | Raise e => isinstance_Exception e = false
     end) /\
  (forall svc sess e,
     isinstance_Exception e = true ->
     (forall clk n, fst (Memory.add_session_to_memory svc sess clk n) = Raise e) ->
     forall s,
       let ctx := {| Memory.invocation_context :=
                       Some {| Memory.memory_service := Some svc;
                               Memory.session := Some sess |} |} in
       (exists s',
          auto_save_session_to_memory ctx s = (Return None, s') /\
          log s' = log s ++
            [ {| lr_level := ERROR;
                 lr_message := "Failed to save session to Memory Bank: " +:+ str_exn e;
                 lr_spiffe_id := AGENT_SPIFFE_ID |} ] /\
          sent s' = sent s) /\
       (forall agent message session_id reply n,
          agent message session_id (clock s) (ticks s) = (Return reply, n) ->
          fst (Memory.run agent auto_save_session_to_memory ctx message session_id s)
          = Return reply)).
Proof.
  split.
  - intros [[[[svc|] [sess|]]|]] s; try reflexivity.
    unfold Memory.auto_save_session_to_memory, try_except, bind, lift_ext; simpl.
    destruct (Memory.add_session_to_memory svc sess _ _) as [[[]|e] t]; simpl; [done|].
    by destruct (isinstance_Exception e) eqn:He.
  - intros svc sess e He Hfail s ctx.
    assert (Hcb : forall s0, exists s',
      auto_save_session_to_memory ctx s0 = (Return None, s') /\
      log s' = log s0 ++
        [ {| lr_level := ERROR;
             lr_message := "Failed to save session to Memory Bank: " +:+ str_exn e;
             lr_spiffe_id := AGENT_SPIFFE_ID |} ] /\
      sent s' = sent s0).
    { intros s0.
      unfold Memory.auto_save_session_to_memory, try_except, bind, lift_ext; simpl.
      specialize (Hfail (clock s0) (ticks s0)).
      destruct (Memory.add_session_to_memory svc sess _ _) as [[[]|e'] t];
        simpl in Hfail; [discriminate|]. injection Hfail as ->.
      rewrite He; simpl. eauto. }
    split; [apply Hcb|].
    intros agent message session_id reply n Hagent.
    unfold Memory.run, bind, lift_ext; simpl. rewrite Hagent.
    destruct (Hcb (set_ticks n s)) as (s' & -> & _). reflexivity.
Qed.

End MemoryProperties.

Lemma auto_save_failure_swallowed_witness :
  fst (Memory.run echo_agent (Memory.auto_save_session_to_memory "spiffe://test" false)
         (saving_ctx (failing_memory (Exception "memory bank down")))
         "hello" (VStr "sess-1") s0)
  = Return ("echo: hello", VStr "sess-1").
Proof.
  destruct (auto_save_failure_swallowed "spiffe://test" false) as [_ Hswallow].
  destruct (Hswallow (failing_memory (Exception "memory bank down"))
              {| Memory.id := "sess-1" |} (Exception "memory bank down")
              eq_refl (fun _ _ => eq_refl) s0) as [_ Hrun].
  apply (Hrun echo_agent "hello" (VStr "sess-1") ("echo: hello", VStr "sess-1") 1).
  reflexivity.
Defined.

(* ===================================================================== *)
(** * Further properties of the gateway                                   *)
(* ===================================================================== *)

Section GatewayBehaviour.

Variables LOCATION ENV : string.
Variable py_repr : value -> string.
Variable render_error : gmap string value -> string.

Local Abbreviation AGENT_ENGINE_IDS := (Gateway.AGENT_ENGINE_IDS ENV).
Local Abbreviation submit_task := (Gateway.submit_task ENV py_repr).
Local Abbreviation get_agent_card := (Gateway.get_agent_card LOCATION ENV).
Local Abbreviation chat_with_orchestrator :=
  (Gateway.chat_with_orchestrator ENV py_repr render_error).
Local Abbreviation health_check := (Gateway.health_check LOCATION ENV).
Local Abbreviation task_message := (Gateway.task_message py_repr).

(** X1.  Every name that [list_agents] returns resolves: [get_agent_card]
    returns the card the table holds for it (never the fallback card),
    answered 200, and leaves the state as it was. *)
Theorem listed_agents_resolve (agent_name : string) (names : list string) (s : state) :
  fst (Gateway.list_agents ENV s) = Return names ->
  agent_name ∈ names ->
  exists card,
    dict_get agent_name (Gateway.cards LOCATION ENV) = Some card /\
    get_agent_card agent_name s = (Return card, s) /\
    Gateway.http_status (fst (get_agent_card agent_name s)) = Some 200%Z.
Proof.
  intros [= <-] Hin. apply (registered_cases ENV) in Hin.
  destruct Hin as [->|[->|[->| ->]]]; eexists; repeat split; reflexivity.
Qed.

(** X2.  [health_check] never dispatches and never logs; when it returns,
    the status is "healthy" whatever the agents reported and the report
    has one entry per registered agent, in the order of [list_agents];
    without a client every agent is reported "unknown". *)
Theorem health_check_report (agent_client : option Gateway.BackendAgentClient) (s : state) :
  sent (snd (health_check agent_client s)) = sent s /\
  log (snd (health_check agent_client s)) = log s /\
  match fst (health_check agent_client s) with
  | Return h =>
      Gateway.health_status h = "healthy" /\
      dict_keys (Gateway.agents h) = dict_keys AGENT_ENGINE_IDS /\
      (agent_client = None ->
       Gateway.agents h = map (fun name => (name, "unknown")) (dict_keys AGENT_ENGINE_IDS))
  | Raise _ => agent_client <> None
  end.
Proof.
  unfold Gateway.health_check. destruct agent_client as [c|]; simpl.
  - unfold bind, lift_ext; simpl.
    repeat match goal with
    | |- context [Gateway.get_agent_status ?c ?i ?k ?n] =>
        destruct (Gateway.get_agent_status c i k n) as [[?|?] ?]; simpl
    end; repeat split; done.
  - repeat split; done.
Qed.

Lemma bind_raise {A B : Type} (m : M A) (k : A -> M B) (s : state) (e : exn) :
  fst (m s) = Raise e -> fst (bind m k s) = Raise e.
Proof. unfold bind. destruct (m s) as [[a|e'] s']; simpl; congruence. Qed.

Lemma health_loop_cons c name id rest acc s :
  Gateway.health_loop (Some c) ((name, id) :: rest) acc s =
  match Gateway.get_agent_status c id (clock s) (ticks s) with
  | (Return st, t) =>
      Gateway.health_loop (Some c) rest (dict_set name st acc) (set_ticks t s)
  | (Raise e, t) => (Raise e, set_ticks t s)
  end.
Proof.
  simpl. unfold bind, lift_ext.
  by destruct (Gateway.get_agent_status c id (clock s) (ticks s)) as [[?|?] ?].
Qed.

(** The loop of [health_check] stops at the first query that raises. *)
Lemma health_loop_raises c items bad_name bad_id e :
  dict_get bad_name items = Some bad_id ->
  (forall clk t, fst (Gateway.get_agent_status c bad_id clk t) = Raise e) ->
  forall acc s,
    (exists e', fst (Gateway.health_loop (Some c) items acc s) = Raise e') /\
    ((forall id, id <> bad_id ->
        forall clk t, exists st, fst (Gateway.get_agent_status c id clk t) = Return st) ->
     fst (Gateway.health_loop (Some c) items acc s) = Raise e).
Proof.
  intros Hget Hfail. induction items as [|[name id] rest IH]; intros acc s.
  - discriminate.
  - simpl in Hget. rewrite !health_loop_cons.
    destruct (Gateway.get_agent_status c id (clock s) (ticks s)) as [[st|e'] t] eqn:Hcall;
      simpl.
    + destruct (String.eqb_spec bad_name name) as [_|_].
      * injection Hget as ->. specialize (Hfail (clock s) (ticks s)).
        rewrite Hcall in Hfail. discriminate Hfail.
      * apply (IH Hget).
    + split; [eauto|]. intros Hothers.
      destruct (String.eqb_spec id bad_id) as [->|Hne].
      * specialize (Hfail (clock s) (ticks s)). rewrite Hcall in Hfail.
        simpl in Hfail. congruence.
      * destruct (Hothers id Hne (clock s) (ticks s)) as [st Hst].
        rewrite Hcall in Hst. discriminate Hst.
Qed.

(** X3.  The status queries of [health_check] are under no [try]: when the
    client's [get_agent_status] raises for one registered agent, the
    handler raises and answers no report; when the queries for the other
    agents return, what it raises is that agent's exception (an
    [Exception] is answered 500, not 200). *)
Theorem health_check_status_error_escapes (c : Gateway.BackendAgentClient)
    (bad_name bad_id : string) (e : exn) (s : state) :
  dict_get bad_name AGENT_ENGINE_IDS = Some bad_id ->
  (forall clk t, fst (Gateway.get_agent_status c bad_id clk t) = Raise e) ->
  (exists e', fst (health_check (Some c) s) = Raise e') /\
  ((forall id, id <> bad_id ->
      forall clk t, exists st, fst (Gateway.get_agent_status c id clk t) = Return st) ->
   fst (health_check (Some c) s) = Raise e /\
   (forall m, e = Exception m ->
      Gateway.http_status (fst (health_check (Some c) s)) = Some 500%Z)).
Proof.
  intros Hid Hfail.
  destruct (health_loop_raises c _ _ _ _ Hid Hfail [] s) as [[e' He'] Hexact].
  unfold Gateway.health_check. split.
  - exists e'. by apply bind_raise.
  - intros Hothers.
    assert (H : fst (health_check (Some c) s) = Raise e)
      by (by apply bind_raise, Hexact).
    split; [exact H|]. intros m ->. unfold Gateway.health_check in H. by rewrite H.
Qed.

(** X4.  In every TaskStatus that [submit_task] returns, [result] is
    present exactly when the status is "completed" and [error] exactly
    when it is "failed". *)
Theorem task_status_result_xor_error agent_client agent_name request s :
  match fst (submit_task agent_client agent_name request s) with
  | Return ts =>
      (is_Some (Gateway.result ts) <-> Gateway.status ts = "completed") /\
      (is_Some (Gateway.error ts) <-> Gateway.status ts = "failed")
  | Raise _ => True
  end.
Proof.
  destruct (dict_get agent_name AGENT_ENGINE_IDS) as [agent_engine_id|] eqn:Hid.
  - destruct agent_client as [c|].
    + rewrite (submit_task_run _ _ _ _ _ _ _ Hid); simpl.
      destruct (Gateway.send_message c _ _ _ _ _) as [[response|e] t]; simpl.
      * split; split; eauto; try discriminate. by intros [? [=]].
      * destruct (isinstance_Exception e); simpl; [|done].
        split; split; eauto; try discriminate. by intros [? [=]].
    + rewrite (submit_task_no_client _ _ _ _ _ _ Hid); simpl.
      split; split; eauto; try discriminate. by intros [? [=]].
  - unfold Gateway.submit_task. by rewrite Hid.
Qed.


(** X6.  Trace ids are never propagated: [submit_task] makes no use of the
    request's [trace_id], and [chat_with_orchestrator] none of a [trace_id]
    in the body -- with or without it the outcome and the state are the
    same. *)
Theorem trace_id_ignored agent_client agent_name request trace body tid s :
  submit_task agent_client agent_name request s =
  submit_task agent_client agent_name
    {| Gateway.skill := Gateway.skill request;
       Gateway.input := Gateway.input request;
       Gateway.session_id := Gateway.session_id request;
       Gateway.trace_id := trace |} s /\
  chat_with_orchestrator agent_client {| Gateway.json := Return (VDict body) |} s =
  chat_with_orchestrator agent_client
    {| Gateway.json := Return (VDict (<["trace_id" := tid]> body)) |} s.
Proof.
  split; [reflexivity|].
  rewrite (chat_run _ _ _ _ {| Gateway.json := Return (VDict body) |} body s eq_refl).
  rewrite (chat_run _ _ _ _
             {| Gateway.json := Return (VDict (<["trace_id" := tid]> body)) |}
             (<["trace_id" := tid]> body) s eq_refl).
  by rewrite !lookup_insert_ne.
Qed.

(** X7.  With the source's own [AgentEngineClient] a submission on a
    registered agent always completes: the reply echoes the message that
    was built from the skill and the input, and carries the request's
    session id when it has a non-empty one and "session-<engine id>"
    otherwise. *)
Theorem stub_client_completes project_id location agent_name request s :
  Spec.registered ENV agent_name ->
  exists agent_engine_id ts reply,
    dict_get agent_name AGENT_ENGINE_IDS = Some agent_engine_id /\
    fst (submit_task (Some (Gateway.AgentEngineClient project_id location))
           agent_name request s) = Return ts /\
    Gateway.status ts = "completed" /\
    Gateway.result ts = Some reply /\
    reply !! "response" =
      Some (VStr ("[Stub] Agent " +:+ agent_engine_id +:+ " received: "
                  +:+ task_message request)) /\
    reply !! "session_id" =
      Some (VStr (match Gateway.session_id request with
                  | Some sid => if String.eqb sid "" then "session-" +:+ agent_engine_id
                                else sid
                  | None => "session-" +:+ agent_engine_id
                  end)).
Proof.
  intros Hreg. destruct (registered_engine_id _ _ Hreg) as [agent_engine_id Hid].
  exists agent_engine_id. rewrite (submit_task_run _ _ _ _ _ _ _ Hid); simpl.
  eexists _, _. split; [done|]. split; [reflexivity|]. split; [done|].
  split; [reflexivity|]. split; [by map_lookup|]. map_lookup.
  unfold Gateway.task_session.
  destruct (Gateway.session_id request) as [sid|]; simpl; [|done].
  by destruct (String.eqb sid "").
Qed.

(** X8.  A body that is not JSON, or JSON that is not an object, is not
    answered 400: the parse error, or the AttributeError of [body.get],
    leaves the handler (an [Exception] is answered 500) before anything is
    dispatched. *)
Theorem chat_malformed_body_escapes agent_client request s :
  (forall e, Gateway.json request = Raise e ->
     chat_with_orchestrator agent_client request s = (Raise e, s)) /\
  (forall body,
     Gateway.json request = Return body ->
     (forall d, body <> VDict d) ->
     chat_with_orchestrator agent_client request s =
       (Raise (Exception ("'" +:+ type_name body +:+ "' object has no attribute 'get'")), s) /\
     Gateway.http_status (fst (chat_with_orchestrator agent_client request s)) = Some 500%Z).
Proof.
  split.
  - intros e He. unfold Gateway.chat_with_orchestrator, lift_outcome.
    unfold bind at 1. by rewrite He.
  - intros body Hbody Hnd.
    assert (H : chat_with_orchestrator agent_client request s =
      (Raise (Exception ("'" +:+ type_name body +:+ "' object has no attribute 'get'")), s)).
    { unfold Gateway.chat_with_orchestrator, lift_outcome.
      unfold bind at 1. rewrite Hbody.
      destruct body; try reflexivity. by destruct (Hnd d). }
    by rewrite H.
Qed.

(** X9.  Before [lifespan] has set the client, a well-formed chat request
    is answered 500: the AttributeError on [None] leaves the handler and
    nothing is dispatched -- where [submit_task] reports a failed task. *)
Theorem chat_without_client_escapes request body s :
  Gateway.json request = Return (VDict body) ->
  truthy (default (VStr "") (body !! "message")) = true ->
  truthy (default (VStr "") (body !! "org_id")) = true ->
  chat_with_orchestrator None request s =
    (Raise (Exception "'NoneType' object has no attribute 'send_message'"), s) /\
  Gateway.http_status (fst (chat_with_orchestrator None request s)) = Some 500%Z.
Proof.
  intros Hjson Hm Ho. rewrite (chat_run _ _ _ _ _ _ _ Hjson); simpl.
  by rewrite Hm, Ho.
Qed.

(** X10.  A chat request with non-empty string [message] and [org_id]
    sends exactly one message, to the orchestrator's engine: the text is
    "[Organization: <org_id>] <message>" and the session id is the body's
    (null when absent). *)
Theorem chat_dispatch c request body message org_id s :
  Gateway.json request = Return (VDict body) ->
  body !! "message" = Some (VStr message) -> message <> "" ->
  body !! "org_id" = Some (VStr org_id) -> org_id <> "" ->
  sent (snd (chat_with_orchestrator (Some c) request s)) =
  sent s ++
    [ {| call_agent_engine_id := "intentvision-orchestrator-" +:+ ENV;
         call_message := "[Organization: " +:+ org_id +:+ "] " +:+ message;
         call_session_id := default VNone (body !! "session_id") |} ].
Proof.
  intros Hjson Hm Hmne Ho Hone.
  rewrite (chat_run _ _ _ _ _ _ _ Hjson); simpl. rewrite Hm, Ho; simpl.
  apply String.eqb_neq in Hmne, Hone. rewrite Hmne, Hone; simpl.
  unfold bind, Gateway.call_send_message, lift_ext; simpl.
  destruct (Gateway.send_message c _ _ _ _ _) as [[reply|e] t]; simpl; [|done].
  unfold Gateway.JSONResponse. by destruct (json_renderable _).
Qed.

(** X11.  With the source's own [AgentEngineClient], the content of the
    answer to a well-formed chat request carries the session id the
    request came with when that is true, and
    "session-intentvision-orchestrator-<ENV>" otherwise, and a null
    [trace_id].  The handler returns that content when it renders as JSON;
    when it does not (a session id that is NaN or an infinity, text with a
    lone surrogate) the rendering raises inside the handler. *)
Theorem chat_session_round_trip project_id location request body s :
  Gateway.json request = Return (VDict body) ->
  truthy (default (VStr "") (body !! "message")) = true ->
  truthy (default (VStr "") (body !! "org_id")) = true ->
  exists content,
    content !! "session_id" =
      Some (let sid := default VNone (body !! "session_id") in
            if truthy sid then sid
            else VStr ("session-intentvision-orchestrator-" +:+ ENV)) /\
    content !! "trace_id" = Some VNone /\
    fst (chat_with_orchestrator (Some (Gateway.AgentEngineClient project_id location))
           request s) =
      (if json_renderable (VDict content) then Return content
       else Raise (Exception (render_error content))).
Proof.
  intros Hjson Hm Ho. rewrite (chat_run _ _ _ _ _ _ _ Hjson); simpl.
  rewrite Hm, Ho; simpl.
  unfold bind, Gateway.call_send_message, lift_ext; simpl.
  lazymatch goal with
  | |- context [Gateway.JSONResponse _ ?content] => exists content
  end.
  split; [unfold Gateway.chat_content; by map_lookup|].
  split; [unfold Gateway.chat_content; by map_lookup|].
  unfold Gateway.JSONResponse. by destruct (json_renderable _).
Qed.

End GatewayBehaviour.

Lemma listed_agents_resolve_witness :
  exists card,
    dict_get "alert-tuner" (Gateway.cards "us-central1" "dev") = Some card /\
    Gateway.get_agent_card "us-central1" "dev" "alert-tuner" s0 = (Return card, s0) /\
    Gateway.http_status
      (fst (Gateway.get_agent_card "us-central1" "dev" "alert-tuner" s0)) = Some 200%Z.
Proof.
  apply (listed_agents_resolve "us-central1" "dev" "alert-tuner"
           ["orchestrator"; "metric-analyst"; "alert-tuner"; "onboarding-coach"] s0).
  - reflexivity.
  - repeat constructor.
Defined.

Lemma health_check_report_witness :
  match fst (Gateway.health_check "us-central1" "dev" None s0) with
  | Return h =>
      Gateway.agents h =
        [ ("orchestrator", "unknown"); ("metric-analyst", "unknown");
          ("alert-tuner", "unknown"); ("onboarding-coach", "unknown") ]
  | Raise _ => False
  end.
Proof.
  destruct (health_check_report "us-central1" "dev" None s0) as (_ & _ & H).
  simpl in *. destruct H as (_ & _ & H). exact (H eq_refl).
Defined.

Lemma health_check_status_error_escapes_witness :
  fst (Gateway.health_check "us-central1" "dev"
         (Some (one_agent_down "intentvision-alert-tuner-dev"
                  (Exception "engine unreachable"))) s0)
  = Raise (Exception "engine unreachable").
Proof.
  destruct (health_check_status_error_escapes "us-central1" "dev"
              (one_agent_down "intentvision-alert-tuner-dev"
                 (Exception "engine unreachable"))
              "alert-tuner" "intentvision-alert-tuner-dev"
              (Exception "engine unreachable") s0 eq_refl) as [_ H].
  - intros; reflexivity.
  - destruct H as [H _]; [|exact H].
    intros id Hne clk t. exists "available". simpl.
    destruct (String.eqb_spec id "intentvision-alert-tuner-dev") as [Heq|_];
      [by destruct Hne | reflexivity].
Defined.


Lemma stub_client_completes_witness :
  exists agent_engine_id ts,
    dict_get "metric-analyst" (Gateway.AGENT_ENGINE_IDS "dev") = Some agent_engine_id /\
    fst (Gateway.submit_task "dev" test_repr (Some stub_client) "metric-analyst"
           (explain_forecast_request ∅) s0) = Return ts /\
    Gateway.status ts = "completed".
Proof.
  destruct (stub_client_completes "dev" test_repr "intentvision" "us-central1"
              "metric-analyst" (explain_forecast_request ∅) s0
              metric_analyst_registered)
    as (agent_engine_id & ts & reply & H1 & H2 & H3 & _).
  exists agent_engine_id, ts. by repeat split.
Defined.

Lemma chat_malformed_body_escapes_witness :
  Gateway.chat_with_orchestrator "dev" test_repr test_render_error (Some stub_client)
    {| Gateway.json := Return (VList [VStr "Hello"]) |} s0 =
  (Raise (Exception "'list' object has no attribute 'get'"), s0).
Proof.
  destruct (chat_malformed_body_escapes "dev" test_repr test_render_error (Some stub_client)
              {| Gateway.json := Return (VList [VStr "Hello"]) |} s0) as [_ H].
  destruct (H (VList [VStr "Hello"]) eq_refl) as [Hraise _].
  - intros d; discriminate.
  - exact Hraise.
Defined.

Lemma chat_without_client_escapes_witness :
  Gateway.http_status
    (fst (Gateway.chat_with_orchestrator "dev" test_repr test_render_error None
            (chat_request hello_body) s0)) = Some 500%Z.
Proof.
  destruct (chat_without_client_escapes "dev" test_repr test_render_error (chat_request hello_body)
              hello_body s0 eq_refl) as [_ H].
  - reflexivity.
  - reflexivity.
  - exact H.
Defined.

Lemma chat_dispatch_witness :
  sent (snd (Gateway.chat_with_orchestrator "dev" test_repr test_render_error (Some stub_client)
               (chat_request hello_body) s0)) =
  sent s0 ++
    [ {| call_agent_engine_id := "intentvision-orchestrator-dev";
         call_message := "[Organization: test-org] Hello";
         call_session_id := default VNone (hello_body !! "session_id") |} ].
Proof.
  apply (chat_dispatch "dev" test_repr test_render_error stub_client (chat_request hello_body)
           hello_body "Hello" "test-org" s0); try reflexivity; discriminate.
Defined.

Lemma chat_session_round_trip_witness :
  exists content,
    content !! "session_id" =
      Some (let sid := default VNone
                         (<["session_id" := VStr "sess-42"]> hello_body !! "session_id") in
            if truthy sid then sid
            else VStr "session-intentvision-orchestrator-dev") /\
    content !! "trace_id" = Some VNone /\
    fst (Gateway.chat_with_orchestrator "dev" test_repr test_render_error
           (Some stub_client)
           (chat_request (<["session_id" := VStr "sess-42"]> hello_body)) s0) =
      (if json_renderable (VDict content) then Return content
       else Raise (Exception (test_render_error content))).
Proof.
  apply (chat_session_round_trip "dev" test_repr test_render_error
           "intentvision" "us-central1"
           (chat_request (<["session_id" := VStr "sess-42"]> hello_body))
           (<["session_id" := VStr "sess-42"]> hello_body) s0); reflexivity.
Defined.

(** A session id that [json.loads] read from [1e999] comes back from the
    stub client as it is, and the answer does not render: the handler
    raises, which FastAPI answers with 500. *)
Example chat_infinite_session_id :
  Gateway.http_status
    (fst (Gateway.chat_with_orchestrator "dev" test_repr test_render_error
            (Some stub_client)
            (chat_request (<["session_id" := VFloat (Infinity false)]> hello_body)) s0))
  = Some 500%Z.
Proof. reflexivity. Qed.

(** Text with a lone surrogate (here U+D800, bytes ED A0 80) does not
    render either. *)
Example lone_surrogate_not_renderable :
  json_renderable
    (VStr (String (ascii_of_N 237) (String (ascii_of_N 160) (String (ascii_of_N 128) ""))))
  = false.
Proof. reflexivity. Qed.

(* ===================================================================== *)
(** * Further properties of the tools                                     *)
(* ===================================================================== *)

Section ToolBehaviour.

Variables INTENTVISION_API_URL INTENTVISION_API_KEY : string.
Variable httpx : Tools.Httpx.

Local Abbreviation invoke := (Tools.invoke INTENTVISION_API_URL INTENTVISION_API_KEY httpx).
Local Abbreviation transport_call :=
  (Tools.transport_call INTENTVISION_API_URL INTENTVISION_API_KEY httpx).
Local Abbreviation get_anomalies :=
  (Tools.get_anomalies INTENTVISION_API_URL INTENTVISION_API_KEY httpx).
Local Abbreviation get_alert_history :=
  (Tools.get_alert_history INTENTVISION_API_URL INTENTVISION_API_KEY httpx).

(** X12.  An empty [metric_key] or [rule_id] is treated as none given: the
    request, and with it the outcome and the state, are those of the call
    without the argument. *)
Theorem optional_empty_is_absent org_id time_range min_severity s :
  get_anomalies org_id (Some "") time_range min_severity s =
  get_anomalies org_id None time_range min_severity s /\
  get_alert_history org_id (Some "") time_range s =
  get_alert_history org_id None time_range s.
Proof. split; reflexivity. Qed.

(** X13.  What a tool returns on a transport failure, key by key: [error]
    and [success], and for the four listing tools the empty list under the
    key their successful payload would carry ([anomalies], [values],
    [rules], [events]). *)
Theorem tool_failure_value (t : Tools.http_tool) (s : state) (e : exn) :
  Spec.transport_failure (transport_call t) s e ->
  isinstance_Exception e = true ->
  fst (invoke t s) =
  Return (VDict
    (match t with
     | Tools.GetForecast _ _ _ _ | Tools.RunPipeline _ _ =>
         {[ "error" := VStr (str_exn e); "success" := VBool false ]}
     | Tools.GetAnomalies _ _ _ _ =>
         {[ "error" := VStr (str_exn e); "success" := VBool false;
            "anomalies" := VList [] ]}
     | Tools.GetMetricHistory _ _ _ =>
         {[ "error" := VStr (str_exn e); "success" := VBool false;
            "values" := VList [] ]}
     | Tools.GetAlertRules _ =>
         {[ "error" := VStr (str_exn e); "success" := VBool false;
            "rules" := VList [] ]}
     | Tools.GetAlertHistory _ _ _ =>
         {[ "error" := VStr (str_exn e); "success" := VBool false;
            "events" := VList [] ]}
     end)).
Proof.
  intros [s' Hu]%underlying_failure He.
  rewrite invoke_try. unfold try_except. rewrite Hu, He; simpl.
  unfold Tools.failure. destruct t; simpl; do 2 f_equal;
    by rewrite ?insert_empty.
Qed.

(** X14.  A tool touches nothing of the process but the passing of time:
    whatever the transport does, the dispatch trace, the log and the clock
    are as they were. *)
Theorem tool_state_frame (t : Tools.http_tool) (s : state) :
  sent (snd (invoke t s)) = sent s /\
  log (snd (invoke t s)) = log s /\
  clock (snd (invoke t s)) = clock s.
Proof.
  rewrite invoke_try.
  unfold try_except, Spec.underlying, Tools.checked_json, bind, lift_ext, lift_outcome.
  destruct (transport_call t (clock s) (ticks s)) as [[r|e] n]; simpl.
  - destruct (Tools.raise_for_status r) as [[]|e]; simpl.
    + destruct (Tools.json r) as [v|e]; simpl; [done|].
      by destruct (isinstance_Exception e).
    + by destruct (isinstance_Exception e).
  - by destruct (isinstance_Exception e).
Qed.

End ToolBehaviour.

Lemma tool_failure_value_witness :
  fst (Tools.get_anomalies "http://localhost:8080" "" httpx_timeout
         "org-123" (Some "revenue.daily") "7d" "warning" s0) =
  Return (VDict {[ "error" := VStr "timed out"; "success" := VBool false;
                   "anomalies" := VList [] ]}).
Proof.
  apply (tool_failure_value "http://localhost:8080" "" httpx_timeout
           (Tools.GetAnomalies "org-123" (Some "revenue.daily") "7d" "warning")
           s0 (Exception "timed out")); [|reflexivity].
  by apply Spec.request_failed with (t := 0).
Defined.


(* ===================================================================== *)
(** * Further properties of the session-memory callback                   *)
(* ===================================================================== *)

Section MemoryBehaviour.

Variable AGENT_SPIFFE_ID : string.
Variable INFO_ENABLED : bool.

Local Abbreviation auto_save_session_to_memory :=
  (Memory.auto_save_session_to_memory AGENT_SPIFFE_ID INFO_ENABLED).

(** X16.  When the memory service saves the session, the callback
    evaluates to [None] and dispatches nothing; it leaves one INFO record
    that names the session and carries the agent's SPIFFE id when the
    module's logger is enabled for INFO, and no record when it is not --
    which is the case unless the application configures logging. *)
Theorem auto_save_success svc sess s t :
  Memory.add_session_to_memory svc sess (clock s) (ticks s) = (Return tt, t) ->
  auto_save_session_to_memory
    {| Memory.invocation_context :=
         Some {| Memory.memory_service := Some svc; Memory.session := Some sess |} |} s =
  (Return None,
   if INFO_ENABLED then
     add_log {| lr_level := INFO;
                lr_message := "Saved session " +:+ Memory.id sess +:+ " to Memory Bank";
                lr_spiffe_id := AGENT_SPIFFE_ID |} (set_ticks t s)
   else set_ticks t s).
Proof.
  intros Hsave.
  unfold Memory.auto_save_session_to_memory, try_except, bind, lift_ext; simpl.
  by rewrite Hsave.
Qed.

(** X17.  Without an invocation context, a memory service or a session the
    callback does nothing: the state is as it was -- no call to any
    service, no log record -- and the result is [None]. *)
Theorem auto_save_noop ctx s :
  (forall invocation_ctx,
     Memory.invocation_context ctx = Some invocation_ctx ->
     Memory.memory_service invocation_ctx = None \/
     Memory.session invocation_ctx = None) ->
  auto_save_session_to_memory ctx s = (Return None, s).
Proof.
  intros Hmiss. destruct ctx as [[[msvc msess]|]]; [|reflexivity].
  destruct (Hmiss _ eq_refl) as [H|H]; simpl in H; subst; [reflexivity|].
  by destruct msvc.
Qed.

(** X18.  What is not an [Exception] is not swallowed: a [BaseException]
    out of the memory service leaves the callback, and nothing is
    logged. *)
Theorem auto_save_base_exception svc sess s e t :
  Memory.add_session_to_memory svc sess (clock s) (ticks s) = (Raise e, t) ->
  isinstance_Exception e = false ->
  auto_save_session_to_memory
    {| Memory.invocation_context :=
         Some {| Memory.memory_service := Some svc; Memory.session := Some sess |} |} s =
  (Raise e, set_ticks t s).
Proof.
  intros Hsave He.
  unfold Memory.auto_save_session_to_memory, try_except, bind, lift_ext; simpl.
  by rewrite Hsave, He.
Qed.

(** X19.  In every case the callback leaves the dispatch trace and the
    clock alone and adds at most one record to the log. *)
Theorem auto_save_frame ctx s :
  let s' := snd (auto_save_session_to_memory ctx s) in
  sent s' = sent s /\ clock s' = clock s /\
  (log s' = log s \/ exists r, log s' = log s ++ [r]).
Proof.
  destruct ctx as [[[[svc|] [sess|]]|]]; simpl; try by repeat split; left.
  unfold Memory.auto_save_session_to_memory, try_except, bind, lift_ext; simpl.
  destruct (Memory.add_session_to_memory svc sess _ _) as [[[]|e] t]; simpl.
  - destruct INFO_ENABLED; simpl; repeat split; eauto.
  - destruct (isinstance_Exception e); simpl; repeat split; eauto.
Qed.

End MemoryBehaviour.

Lemma auto_save_success_witness :
  Memory.auto_save_session_to_memory "spiffe://test" false (saving_ctx saving_memory) s0 =
  (Return None, set_ticks 1 s0).
Proof.
  apply (auto_save_success "spiffe://test" false saving_memory
           {| Memory.id := "sess-1" |} s0 1).
  reflexivity.
Defined.

Lemma auto_save_noop_witness :
  Memory.auto_save_session_to_memory "spiffe://test" false
    {| Memory.invocation_context := None |} s0 = (Return None, s0).
Proof.
  apply (auto_save_noop "spiffe://test" false {| Memory.invocation_context := None |} s0).
  intros invocation_ctx H. discriminate H.
Defined.

Lemma auto_save_base_exception_witness :
  Memory.auto_save_session_to_memory "spiffe://test" false
    (saving_ctx (failing_memory (BaseException "KeyboardInterrupt"))) s0 =
  (Raise (BaseException "KeyboardInterrupt"), set_ticks 0 s0).
Proof.
  apply (auto_save_base_exception "spiffe://test" false
           (failing_memory (BaseException "KeyboardInterrupt"))
           {| Memory.id := "sess-1" |} s0 (BaseException "KeyboardInterrupt") 0);
    reflexivity.
Defined.

(* ===================================================================== *)
(** * Properties of the logging utilities                                 *)
(* ===================================================================== *)

Section LoggingBehaviour.

Variable AGENT_SPIFFE_ID : string.

Local Abbreviation get_logger := (Logging.get_logger AGENT_SPIFFE_ID).
Local Abbreviation event_of := (Logging.event_of AGENT_SPIFFE_ID).

(** X20.  [get_logger] is idempotent: a second call for the same name
    returns the same logger and changes nothing, so a logger never gets a
    second handler from it; and the logger it returns has a handler. *)
Theorem get_logger_idempotent (name : string) (registry : gmap string Logging.Logger) :
  let first := get_logger name registry in
  get_logger name first.2 = first /\
  Logging.handlers first.1 <> [] /\
  first.2 !! Logging.logger_key name = Some first.1.
Proof.
  unfold Logging.get_logger, Logging.getLogger.
  destruct (registry !! Logging.logger_key name) as [[[|h hs] lv]|] eqn:Hreg; simpl.
  - rewrite ?lookup_insert_eq; simpl. by rewrite ?lookup_insert_eq.
  - by rewrite Hreg.
  - rewrite ?lookup_insert_eq; simpl. by rewrite ?lookup_insert_eq.
Qed.

(** X21.  [get_logger] configures only what is not configured: a logger
    that already has a handler keeps its handlers and its level, and no
    logger but the one the name denotes is ever touched; a logger without
    handlers gets exactly one, whose format carries the agent's SPIFFE id,
    and level INFO.  The empty name and "root" denote the same logger. *)
Theorem get_logger_frame (name : string) (registry : gmap string Logging.Logger) :
  (forall logger,
     registry !! Logging.logger_key name = Some logger ->
     Logging.handlers logger <> [] ->
     get_logger name registry = (logger, registry)) /\
  (forall key, key <> Logging.logger_key name ->
     (get_logger name registry).2 !! key = registry !! key) /\
  ((forall logger, registry !! Logging.logger_key name = Some logger ->
                   Logging.handlers logger = []) ->
   (get_logger name registry).1 =
     {| Logging.handlers :=
          [ {| Logging.format := "%(asctime)s %(levelname)s [spiffe=" +:+ AGENT_SPIFFE_ID
                                 +:+ "] %(name)s: %(message)s" |} ];
        Logging.level := Logging.INFO_LEVEL |}) /\
  get_logger "" registry = get_logger "root" registry.
Proof.
  unfold Logging.get_logger, Logging.getLogger. split; [|split; [|split]].
  - intros logger -> Hh. by destruct (Logging.handlers logger).
  - intros key Hne.
    destruct (registry !! Logging.logger_key name) as [[[|h hs] lv]|]; simpl;
      by rewrite ?lookup_insert_ne.
  - intros Hbare.
    destruct (registry !! Logging.logger_key name) as [[hs lv]|] eqn:Hreg; simpl.
    + specialize (Hbare _ eq_refl). simpl in Hbare. by subst hs.
    + reflexivity.
  - reflexivity.
Qed.

(** X22.  In the event of [log_agent_event] the entries of [data] win:
    every key of [data] keeps its value -- also [spiffe_id], [event_type]
    and [task_id] -- and only a key that [data] lacks gets the value the
    function supplies. *)
Theorem event_data_overrides (event_type : string) (data : gmap string value)
    (task_id : option string) :
  let event := event_of event_type data task_id in
  (forall k v, data !! k = Some v -> event !! k = Some v) /\
  (data !! "event_type" = None -> event !! "event_type" = Some (VStr event_type)) /\
  (data !! "spiffe_id" = None -> event !! "spiffe_id" = Some (VStr AGENT_SPIFFE_ID)) /\
  (data !! "task_id" = None ->
   event !! "task_id" = Some (from_option VStr VNone task_id)) /\
  (forall k, k <> "event_type" -> k <> "spiffe_id" -> k <> "task_id" ->
             event !! k = data !! k).
Proof.
  unfold Logging.event_of; simpl. repeat split.
  - intros k v Hk. by apply lookup_union_Some_l.
  - intros Hn. rewrite lookup_union_r by done. by map_lookup.
  - intros Hn. rewrite lookup_union_r by done. by map_lookup.
  - intros Hn. rewrite lookup_union_r by done. by map_lookup.
  - intros k H1 H2 H3. destruct (data !! k) as [v|] eqn:Hk.
    + by apply lookup_union_Some_l.
    + rewrite lookup_union_r by done. by map_lookup.
Qed.

(** X23.  With a logger whose [info] and [warning] return, [log_agent_event]
    returns whatever the persisting function does short of a
    [BaseException]: with AgentFS disabled it is not called at all, and an
    [Exception] out of it ends in a warning.  With the module's own
    [_persist_to_agentfs] the AgentFS switch changes nothing. *)
Theorem log_agent_event_contained {L : Type} (logger : Logging.LoggerObject L)
    (enabled : bool) (persist : gmap string value -> outcome unit)
    (event_type : string) (data : gmap string value) (task_id : option string) (l : L) :
  (forall msg extra l0, exists l1, Logging.info logger msg extra l0 = (Return tt, l1)) ->
  (forall msg l0, exists l1, Logging.warning logger msg l0 = (Return tt, l1)) ->
  (forall event e, persist event = Raise e -> isinstance_Exception e = true) ->
  (exists l',
     Logging.log_agent_event AGENT_SPIFFE_ID enabled persist logger
       event_type data task_id l = (Return tt, l')) /\
  Logging.log_agent_event AGENT_SPIFFE_ID false persist logger
    event_type data task_id l =
  Logging.info logger ("Agent event: " +:+ event_type)
    (event_of event_type data task_id) l /\
  Logging.log_agent_event AGENT_SPIFFE_ID true Logging._persist_to_agentfs logger
    event_type data task_id l =
  Logging.log_agent_event AGENT_SPIFFE_ID false Logging._persist_to_agentfs logger
    event_type data task_id l.
Proof.
  intros Hinfo Hwarn Hpersist. unfold Logging.log_agent_event.
  destruct (Hinfo ("Agent event: " +:+ event_type) (event_of event_type data task_id) l)
    as [l1 ->].
  split; [|split; reflexivity].
  destruct enabled; [|eauto].
  destruct (persist _) as [[]|e] eqn:Hp; [eauto|].
  rewrite (Hpersist _ _ Hp). apply Hwarn.
Qed.

End LoggingBehaviour.

Lemma get_logger_frame_witness :
  (Logging.get_logger "spiffe://test" "agents.orchestrator" ∅).1 =
  {| Logging.handlers :=
       [ {| Logging.format :=
              "%(asctime)s %(levelname)s [spiffe=spiffe://test] %(name)s: %(message)s" |} ];
     Logging.level := Logging.INFO_LEVEL |}.
Proof.
  destruct (get_logger_frame "spiffe://test" "agents.orchestrator" ∅) as (_ & _ & H).
  apply H. intros logger Hl. rewrite lookup_empty in Hl. discriminate Hl.
Defined.

Lemma event_data_overrides_witness :
  Logging.event_of "spiffe://test" "task_started"
    {[ "spiffe_id" := VStr "spiffe://someone-else" ]} None !! "spiffe_id"
  = Some (VStr "spiffe://someone-else").
Proof.
  destruct (event_data_overrides "spiffe://test" "task_started"
              {[ "spiffe_id" := VStr "spiffe://someone-else" ]} None) as [H _].
  apply H. reflexivity.
Defined.

Lemma log_agent_event_contained_witness :
  exists l',
    Logging.log_agent_event "spiffe://test" true
      (fun _ => Raise (Exception "agentfs down")) list_logger
      "task_started" ∅ (Some "task-1") [] = (Return tt, l').
Proof.
  destruct (log_agent_event_contained "spiffe://test" list_logger true
              (fun _ => Raise (Exception "agentfs down"))
              "task_started" ∅ (Some "task-1") []) as [H _].
  - intros msg extra l0. eexists. reflexivity.
  - intros msg l0. eexists. reflexivity.
  - intros event e [= <-]. reflexivity.
  - exact H.
Defined.
